(** * Falkon: the estimator base class and the kernel test contract

    A shallow embedding of [falkon/models/model_utils.py] (class
    [FalkonBase] and the helper [to_c_contig]) and of the expectations
    written down in [falkon/tests/test_kernels.py].

    Python is embedded with an explicit interpreter state: a method is a
    function from the state to an outcome (a value or a raised exception)
    and a new state.  The state holds the estimator object [self], the
    allocator of object identities and the trace of what was printed or
    warned.  Tensor elements stand for floating-point numbers; this file
    never computes on them in [model_utils], and the kernel part computes
    on exact integers. *)

From Stdlib Require Import ZArith QArith Lia String Ascii List Bool.
From stdpp Require Import base list gmap strings.

Local Open Scope Z_scope.

(** ** Python runtime *)

Module Py.

(** The texts of the exceptions and of the printed lines, kept as data. *)
Inductive message :=
| MsgMustSpecifyM
| MsgInvalidCenterSelection (name : string)
| MsgSampleMismatch (nx ny : Z)
| MsgTargetRank (ndim : nat)
| MsgDtypeMismatch
| MsgNotTrained
| MsgKernelWillBeStored (n m : Z)
| MsgCannotStore (available_ram necessary_ram : Z)
| MsgOutputNotUsed
| MsgNotClose
| MsgSizeMismatch
| MsgNumpyRequiresGrad
| MsgSeedOverflow.

Inductive exception :=
| ValueError (m : message)
| TypeError (m : message)
| RuntimeError (m : message)
| AssertionError (m : message)
| IndexError
| UnboundLocalError
| CheckerError (code : nat).

Inductive outcome (A : Type) :=
| Ok (a : A)
| Raise (e : exception).
Arguments Ok {A} a.
Arguments Raise {A} e.

(** What a Python function hands back when it is used as a condition:
    [True], [False], or [None] when control falls off its end. *)
Inductive pyval :=
| PyBool (b : bool)
| PyNone.

Definition truthy (v : pyval) : bool :=
  match v with
  | PyBool b => b
  | PyNone => false
  end.

Definition is_bool (v : pyval) : bool :=
  match v with
  | PyBool _ => true
  | PyNone => false
  end.

(** [str.lower] on the ASCII letters; every other character is kept. No
    character outside ASCII lowers to a letter of ["uniform"]. *)
Definition ascii_lower (c : ascii) : ascii :=
  let n := nat_of_ascii c in
  if ((65 <=? n)%nat && (n <=? 90)%nat)%bool then ascii_of_nat (n + 32) else c.

Fixpoint lower (s : string) : string :=
  match s with
  | EmptyString => EmptyString
  | String c rest => String (ascii_lower c) (lower rest)
  end.

End Py.

Export Py.

(** ** Tensors *)

Module Torch.

Inductive torch_dtype := float32 | float64.

Inductive torch_device := cpu | cuda (index : nat).

Definition dtype_eqb (a b : torch_dtype) : bool :=
  match a, b with
  | float32, float32 | float64, float64 => true
  | _, _ => false
  end.

Definition device_eqb (a b : torch_device) : bool :=
  match a, b with
  | cpu, cpu => true
  | cuda i, cuda j => Nat.eqb i j
  | _, _ => false
  end.

(** A dense tensor object: its Python identity, its sizes and strides
    (in elements), element type, device, whether autograd records it, and
    its elements listed in logical (row-major index) order, which no
    change of layout alters. *)
Record Tensor := mkTensor {
  obj_id : nat;
  shape : list Z;
  stride : list Z;
  dtype : torch_dtype;
  device : torch_device;
  requires_grad : bool;
  values : list Z
}.

(** A numpy array, as [Tensor.numpy] exposes a CPU tensor. *)
Record ndarray := mkNdarray {
  np_shape : list Z;
  np_strides : list Z;
  np_dtype : torch_dtype;
  np_values : list Z
}.

Definition dim (t : Tensor) : nat := length (shape t).

(** Strides of a freshly allocated C-ordered array: the last axis has
    stride 1 and each axis before it steps over the axes after it, an
    axis of size 0 counting as 1. *)
Fixpoint c_strides_from (sizes : list Z) : list Z * Z :=
  match sizes with
  | [] => ([], 1)
  | d :: rest =>
      let '(strides, sd) := c_strides_from rest in
      (sd :: strides, if d =? 0 then sd else sd * d)
  end.

Definition c_strides (sizes : list Z) : list Z := fst (c_strides_from sizes).

(** numpy's C_CONTIGUOUS flag: an array with an axis of size 0 is
    contiguous; otherwise, from the last axis backwards, every axis whose
    size is not 1 must have the stride of the block behind it. *)
Fixpoint c_contig_from (sizes strides : list Z) : bool * Z :=
  match sizes, strides with
  | d :: rest, s :: srest =>
      let '(ok, sd) := c_contig_from rest srest in
      if d =? 1 then (ok, sd) else (ok && (s =? sd), sd * d)
  | _, _ => (true, 1)
  end.

Definition is_c_contiguous (sizes strides : list Z) : bool :=
  existsb (Z.eqb 0) sizes || fst (c_contig_from sizes strides).

(** [np.asarray(a, order="C")]: the array itself when it is already
    C-contiguous, otherwise a copy laid out in C order. *)
Definition np_asarray_C (a : ndarray) : ndarray :=
  if is_c_contiguous (np_shape a) (np_strides a) then a
  else {| np_shape := np_shape a; np_strides := c_strides (np_shape a);
          np_dtype := np_dtype a; np_values := np_values a |}.

(** [t.numpy()] on a CPU tensor: the array over the same elements; torch
    refuses with [RuntimeError] for a tensor that requires grad. *)
Definition numpy (t : Tensor) : outcome ndarray :=
  if requires_grad t then Raise (RuntimeError MsgNumpyRequiresGrad)
  else Ok {| np_shape := shape t; np_strides := stride t;
             np_dtype := dtype t; np_values := values t |}.

End Torch.

Export Torch.

(** ** [falkon/models/model_utils.py] *)

Module ModelUtils.

(** The fields of [FalkonOptions] that [model_utils] reads. *)
Record FalkonOptions := mkOptions {
  never_store_kernel : bool;
  store_kernel_d_threshold : Z;
  debug : bool
}.

Inductive CenterSelector :=
| UniformSelector (random_gen : nat) (num_centers : Z)
| CustomSelector (obj : nat).

(** The argument [center_selection] of the constructor:
    [Union[str, CenterSelector]]. *)
Inductive center_selection_arg :=
| ByName (name : string)
| BySelector (selector : CenterSelector).

(** The attributes of a [FalkonBase] object. *)
Record FalkonBase := mkFalkonBase {
  M : option Z;
  seed : option Z;
  random_state_ : nat;
  options : FalkonOptions;
  use_cuda_ : bool;
  num_gpus : Z;
  alpha_ : option Tensor;
  ny_points_ : option Tensor;
  fit_times_ : option (list Z);
  val_errors_ : option (list Z)
}.

Inductive event :=
| Stdout (m : message)
| Warning (name : string) (strides : list Z).

(** The interpreter state: the estimator, the next free object identity,
    and what has been printed or warned so far (oldest first). *)
Record state := mkState {
  self : FalkonBase;
  next_id : nat;
  trace : list event
}.

(** A computation may change the state and either returns or raises; the
    state reached at a [raise] is kept. *)
Definition Run (A : Type) : Type := state -> outcome A * state.

Definition ret {A} (a : A) : Run A := fun st => (Ok a, st).

Definition raise {A} (e : exception) : Run A := fun st => (Raise e, st).

Definition bind {A B} (c : Run A) (k : A -> Run B) : Run B :=
  fun st =>
    match c st with
    | (Ok a, st') => k a st'
    | (Raise e, st') => (Raise e, st')
    end.

Notation "'let*' x ':=' c 'in' k" := (bind c (fun x => k))
  (at level 61, x pattern, c at next level, k at level 200, right associativity).

Definition get_self : Run FalkonBase := fun st => (Ok (self st), st).

Definition set_self (f : FalkonBase) : Run unit :=
  fun st => (Ok tt, {| self := f; next_id := next_id st; trace := trace st |}).

Definition emit (e : event) : Run unit :=
  fun st => (Ok tt, {| self := self st; next_id := next_id st; trace := trace st ++ [e] |}).

Definition print (m : message) : Run unit := emit (Stdout m).

Definition warnings_warn (name : string) (strides : list Z) : Run unit :=
  emit (Warning name strides).

(** A new Python object: takes the next identity. *)
Definition new_object : Run nat :=
  fun st => (Ok (next_id st),
             {| self := self st; next_id := S (next_id st); trace := trace st |}).

Definition when (b : bool) (c : Run unit) : Run unit := if b then c else ret tt.

(** [t.shape[i]] and [t.size(i)] for a literal [i >= 0]. *)
Definition shape_at (t : Tensor) (i : nat) : Run Z :=
  match shape t !! i with
  | Some d => ret d
  | None => raise IndexError
  end.

(** [torch.unsqueeze(t, d)]: a new tensor object viewing the same
    elements, with an axis of size 1 put at position [d]. *)
Definition unsqueeze (t : Tensor) (d : nat) : Run Tensor :=
  if (d <=? dim t)%nat then
    let* i := new_object in
    let new_stride :=
      match shape t !! d, stride t !! d with
      | Some sz, Some st => sz * st
      | _, _ => 1
      end in
    ret {| obj_id := i;
           shape := take d (shape t) ++ 1 :: drop d (shape t);
           stride := take d (stride t) ++ new_stride :: drop d (stride t);
           dtype := dtype t; device := device t;
           requires_grad := requires_grad t; values := values t |}
  else raise IndexError.

(** [t.cpu()]: the tensor itself when it lives on the CPU, else a copy,
    which autograd records when it records [t]. *)
Definition Tensor_cpu (t : Tensor) : Run Tensor :=
  if device_eqb (device t) cpu then ret t
  else
    let* i := new_object in
    ret {| obj_id := i; shape := shape t; stride := stride t;
           dtype := dtype t; device := cpu;
           requires_grad := requires_grad t; values := values t |}.

(** [t.numpy()], raising what [numpy] refuses. *)
Definition Tensor_numpy (t : Tensor) : Run ndarray :=
  match numpy t with
  | Ok a => ret a
  | Raise e => raise e
  end.

Definition from_numpy (a : ndarray) : Run Tensor :=
  let* i := new_object in
  ret {| obj_id := i; shape := np_shape a; stride := np_strides a;
         dtype := np_dtype a; device := cpu;
         requires_grad := false; values := np_values a |}.

(** [t.to(device=d)]: the tensor itself when it is already there. *)
Definition Tensor_to (t : Tensor) (d : torch_device) : Run Tensor :=
  if device_eqb (device t) d then ret t
  else
    let* i := new_object in
    ret {| obj_id := i; shape := shape t; stride := stride t;
           dtype := dtype t; device := d;
           requires_grad := requires_grad t; values := values t |}.

(** Modelled from the spec: [check_same_dtype] of [falkon.utils.helpers]
    is not part of the sources at hand. The spec asks that X and Y share
    one numeric element type; for two tensors the helper compares their
    [dtype]. *)
Definition check_same_dtype (X Y : Tensor) : bool := dtype_eqb (dtype X) (dtype Y).

Section FalkonBase.

(** Helpers of the library that live outside [model_utils]. *)
Variable sizeof_dtype : torch_dtype -> Z.
Variable is_f_contig : Tensor -> bool -> bool.
Variable should_use_keops : Tensor -> Tensor -> FalkonOptions -> bool.

(** The abstract method [_predict] of the solver variant. *)
Variable _predict : Tensor -> option Tensor -> option Tensor -> Run Tensor.

(** The branch of [to_c_contig] taken for a tensor that is not [None]. *)
Definition to_c_contig_tensor (tensor : Tensor) (name : string) (warn : bool) : Run Tensor :=
  if is_f_contig tensor true then
    let* _ := when warn (warnings_warn name (stride tensor)) in
    let orig_device := device tensor in
    let* on_cpu := Tensor_cpu tensor in
    let* array := Tensor_numpy on_cpu in
    let* copied := from_numpy (np_asarray_C array) in
    Tensor_to copied orig_device
  else ret tensor.

Definition to_c_contig (tensor : option Tensor) (name : string) (warn : bool)
  : Run (option Tensor) :=
  match tensor with
  | Some t => let* r := to_c_contig_tensor t name warn in ret (Some r)
  | None => ret None
  end.

Definition _init_center_selection (center_selection : center_selection_arg)
  : Run CenterSelector :=
  let* this := get_self in
  match center_selection with
  | ByName name =>
      if String.eqb (lower name) "uniform" then
        match M this with
        | None => raise (ValueError MsgMustSpecifyM)
        | Some m => ret (UniformSelector (random_state_ this) m)
        end
      else raise (ValueError (MsgInvalidCenterSelection name))
  | BySelector selector => ret selector
  end.

Definition _reset_state : Run unit :=
  let* this := get_self in
  set_self {| M := M this; seed := seed this; random_state_ := random_state_ this;
              options := options this; use_cuda_ := use_cuda_ this;
              num_gpus := num_gpus this;
              alpha_ := None; ny_points_ := None;
              fit_times_ := Some []; val_errors_ := Some [] |}.

Definition _check_fit_inputs (X Y : Tensor) (Xts Yts : option Tensor)
  : Run (Tensor * Tensor * option Tensor * option Tensor) :=
  let* this := get_self in
  let* nx := shape_at X 0 in
  let* ny := shape_at Y 0 in
  if negb (nx =? ny) then raise (ValueError (MsgSampleMismatch nx ny))
  else
    let* Y := (if (dim Y =? 1)%nat then unsqueeze Y 1 else ret Y) in
    if negb (dim Y =? 2)%nat then raise (ValueError (MsgTargetRank (dim Y)))
    else if negb (check_same_dtype X Y) then raise (TypeError MsgDtypeMismatch)
    else if should_use_keops X X (options this) then
      let* X := to_c_contig_tensor X "X" true in
      let* Y := to_c_contig_tensor Y "Y" true in
      let* Xts := to_c_contig Xts "Xts" true in
      let* Yts := to_c_contig Yts "Yts" true in
      ret (X, Y, Xts, Yts)
    else ret (X, Y, Xts, Yts).

Definition _check_predict_inputs (X : Tensor) : Run Tensor :=
  let* this := get_self in
  match alpha_ this, ny_points_ this with
  | Some _, Some ny_points =>
      if should_use_keops X ny_points (options this)
      then to_c_contig_tensor X "X" true
      else ret X
  | _, _ => raise (RuntimeError MsgNotTrained)
  end.

(** [available_ram] is a number of bytes. When neither [return] of the
    large-D case is reached the method ends and Python hands back
    [None]. *)
Definition _can_store_knm (X ny_points : Tensor) (available_ram : Z) : Run pyval :=
  let* this := get_self in
  if never_store_kernel (options this) then ret (PyBool false)
  else
    let dts := sizeof_dtype (dtype X) in
    let store_threshold := store_kernel_d_threshold (options this) in
    let* d := shape_at X 1 in
    if d >? store_threshold then
      let* n := shape_at X 0 in
      let* m := shape_at ny_points 0 in
      let necessary_ram := n * m * dts in
      if available_ram >? necessary_ram then
        let* _ := when (debug (options this)) (print (MsgKernelWillBeStored n m)) in
        ret (PyBool true)
      else if debug (options this) then
        let* _ := print (MsgCannotStore available_ram necessary_ram) in
        ret (PyBool false)
      else ret PyNone
    else ret (PyBool false).

Definition predict (X : Tensor) : Run Tensor :=
  let* X := _check_predict_inputs X in
  let* this := get_self in
  _predict X (ny_points_ this) (alpha_ this).

End FalkonBase.

End ModelUtils.

(** ** Dense matrices, as numpy computes the expected values *)

Module Matrix.

Record matrix := mkMatrix {
  nrows : nat;
  ncols : nat;
  entries : list (list Z)
}.

(** The rows listed agree with the declared shape. *)
Definition wf_matrix (A : matrix) : bool :=
  (length (entries A) =? nrows A)%nat
  && forallb (fun r => (length r =? ncols A)%nat) (entries A).

Definition dot (r c : list Z) : Z := fold_right Z.add 0 (zip_with Z.mul r c).

Definition column (j : nat) (A : matrix) : list Z :=
  map (fun r => nth j r 0) (entries A).

(** [A.T] *)
Definition transpose (A : matrix) : matrix :=
  {| nrows := ncols A; ncols := nrows A;
     entries := map (fun j => column j A) (seq 0 (ncols A)) |}.

(** [A @ B]; numpy raises when the inner sizes differ. *)
Definition matmul (A B : matrix) : option matrix :=
  if (ncols A =? nrows B)%nat then
    Some {| nrows := nrows A; ncols := ncols B;
            entries := map (fun r => map (fun j => dot r (column j B)) (seq 0 (ncols B)))
                           (entries A) |}
  else None.

(** The sum of two matrices of one shape. It is numpy's [A + B] on such
    operands; for any other pair of shapes it gives no result, also where
    numpy would broadcast, so statements that use it fix equal shapes. *)
Definition madd (A B : matrix) : option matrix :=
  if ((nrows A =? nrows B)%nat && (ncols A =? ncols B)%nat)%bool then
    Some {| nrows := nrows A; ncols := ncols A;
            entries := zip_with (zip_with Z.add) (entries A) (entries B) |}
  else None.

Definition zeros (n t : nat) : matrix :=
  {| nrows := n; ncols := t; entries := replicate n (replicate t 0) |}.

(** [np.testing.assert_allclose(first, second, rtol)] with its default
    [atol = 0]: same shape, and every entry of [first] within
    [rtol * |second entry|] of the entry of [second]. *)
Definition close_entry (rtol : Q) (x y : Z) : bool :=
  Qle_bool (inject_Z (Z.abs (x - y))) (rtol * inject_Z (Z.abs y)).

Definition allclose (rtol : Q) (first second : matrix) : bool :=
  (nrows first =? nrows second)%nat && (ncols first =? ncols second)%nat
  && (length (entries first) =? length (entries second))%nat
  && forallb (fun '(r, s) =>
                (length r =? length s)%nat
                && forallb (fun '(x, y) => close_entry rtol x y) (zip r s))
             (zip (entries first) (entries second)).

End Matrix.

Export Matrix.

(** ** The kernel evaluator *)

Module Kernels.

(** Device memory: what each buffer address holds. *)
Abbreviation memory := (gmap nat matrix).

Section Kernel.

(** The kernel function on a pair of points. *)
Variable k : list Z -> list Z -> Z.

(** Modelled from the spec: the kernel classes ([falkon.kernels]) are not
    part of the sources at hand. "Given two point sets A (n x d) and
    B (m x d), produce the n x m kernel matrix", entry (i, j) being the
    kernel of row i of A and row j of B. *)
Definition full (A B : list (list Z)) : matrix :=
  {| nrows := length A; ncols := length B;
     entries := map (fun a => map (fun b => k a b) B) A |}.

(** Modelled from the spec: [mmv(A, B, v)] is "equivalent to
    K(A,B) @ v". *)
Definition mmv (A B : list (list Z)) (v : matrix) : option matrix :=
  matmul (full A B) v.

(** Modelled from the spec: [dmmv(A, B, v, w)] is "equivalent to
    K(A,B)^T @ (K(A,B) @ v + w), supporting v or w being absent (treated
    as zero)". The absent operand is the zero matrix of the shape the sum
    needs; the spec lets [v] or [w] be left out one at a time, and with
    both left out there is no result. *)
Definition dmmv (A B : list (list Z)) (v w : option matrix) : option matrix :=
  let K := full A B in
  match v, w with
  | None, None => None
  | _, _ =>
      let t := match v, w with
               | Some v', _ => ncols v'
               | None, Some w' => ncols w'
               | None, None => 0%nat
               end in
      let v' := default (zeros (ncols K) t) v in
      let w' := default (zeros (nrows K) t) w in
      match matmul K v' with
      | Some Kv =>
          match madd Kv w' with
          | Some s => matmul (transpose K) s
          | None => None
          end
      | None => None
      end
  end.

(** The three evaluations a kernel offers. *)
Inductive kernel_call :=
| CallFull (A B : list (list Z))
| CallMmv (A B : list (list Z)) (v : matrix)
| CallDmmv (A B : list (list Z)) (v w : option matrix).

Definition kernel_value (c : kernel_call) : option matrix :=
  match c with
  | CallFull A B => Some (full A B)
  | CallMmv A B v => mmv A B v
  | CallDmmv A B v w => dmmv A B v w
  end.

(** Modelled from the spec: "optional output buffer may be supplied and
    must be the one returned (identity, not a copy)". An evaluation given
    [out] writes its result at that address and returns it; without [out]
    it takes an address not in use. Operands of the wrong shape raise
    before anything is written. *)
Definition evaluate (c : kernel_call) (out : option nat) (mem : memory)
  : outcome nat * memory :=
  match kernel_value c with
  | None => (Raise (RuntimeError MsgSizeMismatch), mem)
  | Some r =>
      match out with
      | Some p => (Ok p, <[p := r]> mem)
      | None => let p := fresh (dom mem) in (Ok p, <[p := r]> mem)
      end
  end.

End Kernel.

End Kernels.

Export Kernels.

(** ** [falkon/tests/test_kernels.py] *)

Module TestKernels.

Definition _RTOL (dt : torch_dtype) : Q :=
  match dt with
  | float32 => 1 # 100000
  | float64 => 1 # 1000000000000
  end.

(** The class fixtures with the expected values. *)
Definition exp_v (exp_k v : matrix) : option matrix := matmul exp_k v.

Definition exp_dv (exp_k v : matrix) : option matrix :=
  match matmul exp_k v with
  | Some kv => matmul (transpose exp_k) kv
  | None => None
  end.

Definition exp_dw (exp_k w : matrix) : option matrix := matmul (transpose exp_k) w.

Definition exp_dvw (exp_k v w : matrix) : option matrix :=
  match matmul exp_k v with
  | Some kv =>
      match madd kv w with
      | Some s => matmul (transpose exp_k) s
      | None => None
      end
  | None => None
  end.

(** What the accuracy check of a test says of an expected and an actual
    value, either of which may be missing because its computation
    raised. *)
Definition agrees (rtol : Q) (exp actual : option matrix) : bool :=
  match exp, actual with
  | Some e, Some a => allclose rtol e a
  | None, None => true
  | _, _ => false
  end.

(** What entering or leaving the [memory_checker] context gives: a
    value, or an error of the checker's own, kept as a code. *)
Inductive checked (A : Type) :=
| Passed (a : A)
| Failed (code : nat).
Arguments Passed {A} a.
Arguments Failed {A} code.

(** Leaving a context: it is told the exception of the body, if there
    is one, and answers whether it swallows it. *)
Definition leave_fn : Type := option exception -> memory -> checked bool * memory.

Section Runner.

(** The options of the tests, and the context manager [memory_checker]
    of the tests' conftest, which is not part of the sources at hand:
    entering it gives the options for the call and what leaving it will
    do. *)
Variable options : Type.
Variable memory_checker : options -> memory -> checked (options * leave_fn) * memory.

(** The two checks of [_run_test] on the tensor the call returned. *)
Definition run_checks (exp : matrix) (actual : nat) (out : option nat) (rtol : Q)
    (mem : memory) : outcome unit * memory :=
  (* Check 1. Accuracy *)
  match mem !! actual with
  | None => (Raise (AssertionError MsgNotClose), mem)
  | Some result =>
      if allclose rtol exp result then
        (* Check 2. Output pointers *)
        match out with
        | Some p =>
            if (p =? actual)%nat then (Ok tt, mem)
            else (Raise (AssertionError MsgOutputNotUsed), mem)
        | None => (Ok tt, mem)
        end
      else (Raise (AssertionError MsgNotClose), mem)
  end.

(** [_run_test]: [fn] stands for the call [fn( *tensors, out=out, opt=new_opt)]
    with its tensors already given. The call runs inside
    [with memory_checker(opt) as new_opt]: an exception of the call goes
    through the context, and if the context swallows it [actual] is never
    assigned. *)
Definition _run_test (fn : options -> option nat -> memory -> outcome nat * memory)
    (exp : matrix) (out : option nat) (rtol : Q) (opt : options) (mem : memory)
  : outcome unit * memory :=
  match memory_checker opt mem with
  | (Failed code, mem0) => (Raise (CheckerError code), mem0)
  | (Passed (new_opt, leave), mem0) =>
      match fn new_opt out mem0 with
      | (Raise e, mem1) =>
          match leave (Some e) mem1 with
          | (Failed code, mem2) => (Raise (CheckerError code), mem2)
          | (Passed true, mem2) => (Raise UnboundLocalError, mem2)
          | (Passed false, mem2) => (Raise e, mem2)
          end
      | (Ok actual, mem1) =>
          match leave None mem1 with
          | (Failed code, mem2) => (Raise (CheckerError code), mem2)
          | (Passed _, mem2) => run_checks exp actual out rtol mem2
          end
      end
  end.

(** The three tests of [dmmv], each with its fixture already computed
    and its options already built. They pass [out=None]; [dt] is the
    element type of [A]. *)
Definition test_dv (k : list Z -> list Z -> Z) (A B : list (list Z)) (v : matrix)
    (exp_dv : matrix) (dt : torch_dtype) (opt : options)
  : memory -> outcome unit * memory :=
  _run_test (fun _ => evaluate k (CallDmmv A B (Some v) None)) exp_dv None (_RTOL dt) opt.

Definition test_dw (k : list Z -> list Z -> Z) (A B : list (list Z)) (w : matrix)
    (exp_dw : matrix) (dt : torch_dtype) (opt : options)
  : memory -> outcome unit * memory :=
  _run_test (fun _ => evaluate k (CallDmmv A B None (Some w))) exp_dw None (_RTOL dt) opt.

Definition test_dvw (k : list Z -> list Z -> Z) (A B : list (list Z)) (v w : matrix)
    (exp_dvw : matrix) (dt : torch_dtype) (opt : options)
  : memory -> outcome unit * memory :=
  _run_test (fun _ => evaluate k (CallDmmv A B (Some v) (Some w))) exp_dvw None
    (_RTOL dt) opt.

End Runner.

Arguments _run_test {options} memory_checker fn exp out rtol opt mem.
Arguments test_dv {options} memory_checker k A B v exp_dv dt opt.
Arguments test_dw {options} memory_checker k A B w exp_dw dt opt.
Arguments test_dvw {options} memory_checker k A B v w exp_dvw dt opt.

End TestKernels.

(** ** The whole estimator: constructor, device set-up, CG callback *)

Module Estimator.

Import ModelUtils.

(** Two tensors with the same shape, elements, element type and device;
    they may differ in identity and strides. *)
Definition same_content (a b : Tensor) : Prop :=
  shape a = shape b /\ values a = values b /\ dtype a = dtype b /\ device a = device b.

Definition same_content_opt (a b : option Tensor) : Prop :=
  match a, b with
  | Some x, Some y => same_content x y
  | None, None => True
  | _, _ => False
  end.

(** What can be raised here: the exceptions of the validation methods,
    a failed [assert] with its text, and the errors of Python's
    operators. *)
Inductive exc :=
| Inherited (e : exception)
| AssertionFailure (text : string)
| ZeroDivisionError
| NoneTypeError
| AttributeError.

Inductive result (A : Type) :=
| Return (a : A)
| Throw (e : exc).
Arguments Return {A} a.
Arguments Throw {A} e.

(** What an error function hands back: a value, or the pair of a value
    and its name. *)
Inductive error_value :=
| Plain (err : Z)
| Named (err : Z) (err_name : string).

(** The two lines the callback prints. *)
Inductive line :=
| LineElapsed (it elapsed : Z)
| LineError (it elapsed : Z) (err_str err_name : string) (err : Z).

(** The attributes of the estimator beside those of [FalkonBase]; a
    callable is kept by a handle. *)
Record attributes := mkAttributes {
  kernel : nat;
  error_fn : option nat;
  error_every : option Z;
  center_selection : option CenterSelector
}.

(** The interpreter state around the whole object: [base] holds the
    [FalkonBase] attributes of [self], the allocator and the warnings;
    then the other attributes, the seeds given to [torch.manual_seed],
    the number of [torch.cuda.init] calls and the lines printed by the
    callback. *)
Record world := mkWorld {
  base : state;
  more : attributes;
  seeds : list Z;
  cuda_inits : nat;
  console : list line
}.

Definition ERun (A : Type) : Type := world -> result A * world.

Definition eret {A} (a : A) : ERun A := fun w => (Return a, w).

Definition throw {A} (e : exc) : ERun A := fun w => (Throw e, w).

Definition ebind {A B} (c : ERun A) (k : A -> ERun B) : ERun B :=
  fun w =>
    match c w with
    | (Return a, w') => k a w'
    | (Throw e, w') => (Throw e, w')
    end.

Notation "'let+' x ':=' c 'in' k" := (ebind c (fun x => k))
  (at level 61, x pattern, c at next level, k at level 200, right associativity).

(** A method of the validation part, run on the [base] of the world. *)
Definition lift {A} (c : Run A) : ERun A :=
  fun w =>
    let '(r, st') := c (base w) in
    let w' := {| base := st'; more := more w; seeds := seeds w;
                 cuda_inits := cuda_inits w; console := console w |} in
    match r with
    | Ok a => (Return a, w')
    | Raise e => (Throw (Inherited e), w')
    end.

Definition of_outcome {A} (r : outcome A) : ERun A :=
  match r with
  | Ok a => eret a
  | Raise e => throw (Inherited e)
  end.

(** Reading and assigning attributes of [self]. *)
Definition attr {A} (f : world -> A) : ERun A := fun w => (Return (f w), w).

Definition this (w : world) : FalkonBase := self (base w).

Definition assign_base (f : FalkonBase -> FalkonBase) : ERun unit :=
  fun w => (Return tt,
            {| base := {| self := f (this w); next_id := next_id (base w);
                          trace := trace (base w) |};
               more := more w; seeds := seeds w; cuda_inits := cuda_inits w;
               console := console w |}).

Definition assign_more (f : attributes -> attributes) : ERun unit :=
  fun w => (Return tt,
            {| base := base w; more := f (more w); seeds := seeds w;
               cuda_inits := cuda_inits w; console := console w |}).

(** The seeds that [torch.manual_seed] takes: from -2^63 to 2^64 - 1. *)
Definition seed_in_range (s : Z) : bool := (- 2 ^ 63 <=? s) && (s <=? 2 ^ 64 - 1).

(** [torch.manual_seed(s)]: seeds the process-wide generator, or raises
    [RuntimeError] for a seed out of range. *)
Definition manual_seed (s : Z) : ERun unit :=
  if seed_in_range s then
    fun w => (Return tt,
              {| base := base w; more := more w; seeds := seeds w ++ [s];
                 cuda_inits := cuda_inits w; console := console w |})
  else throw (Inherited (RuntimeError MsgSeedOverflow)).

Definition cuda_init : ERun unit :=
  fun w => (Return tt,
            {| base := base w; more := more w; seeds := seeds w;
               cuda_inits := S (cuda_inits w); console := console w |}).

Definition print_line (l : line) : ERun unit :=
  fun w => (Return tt,
            {| base := base w; more := more w; seeds := seeds w;
               cuda_inits := cuda_inits w; console := console w ++ [l] |}).

(** [assert cond, text] *)
Definition assert_ (cond : bool) (text : string) : ERun unit :=
  if cond then eret tt else throw (AssertionFailure text).

Definition is_None {A} (o : option A) : bool :=
  match o with
  | None => true
  | Some _ => false
  end.

(** [a % b] on integers: the sign of the result is that of [b]. *)
Definition pymod (a : Z) (b : option Z) : ERun Z :=
  match b with
  | None => throw NoneTypeError
  | Some k => if k =? 0 then throw ZeroDivisionError else eret (a mod k)
  end.

(** [l[0]] and [l[-1]] on an attribute that holds a list or [None]. *)
Definition first_item (l : option (list Z)) : ERun Z :=
  match l with
  | None => throw NoneTypeError
  | Some [] => throw (Inherited IndexError)
  | Some (x :: _) => eret x
  end.

Definition last_item (l : option (list Z)) : ERun Z :=
  match l with
  | None => throw NoneTypeError
  | Some items =>
      match last items with
      | None => throw (Inherited IndexError)
      | Some x => eret x
      end
  end.

(** [self.fit_times_.append(t)] and [self.val_errors_.append(e)]. *)
Definition append_fit_time (t : Z) : ERun unit :=
  let+ times := attr (fun w => fit_times_ (this w)) in
  match times with
  | None => throw AttributeError
  | Some items =>
      assign_base (fun b =>
        {| M := M b; seed := seed b; random_state_ := random_state_ b;
           options := options b; use_cuda_ := use_cuda_ b; num_gpus := num_gpus b;
           alpha_ := alpha_ b; ny_points_ := ny_points_ b;
           fit_times_ := Some (items ++ [t]); val_errors_ := val_errors_ b |})
  end.

Definition append_val_error (e : Z) : ERun unit :=
  let+ errors := attr (fun w => val_errors_ (this w)) in
  match errors with
  | None => throw AttributeError
  | Some items =>
      assign_base (fun b =>
        {| M := M b; seed := seed b; random_state_ := random_state_ b;
           options := options b; use_cuda_ := use_cuda_ b; num_gpus := num_gpus b;
           alpha_ := alpha_ b; ny_points_ := ny_points_ b;
           fit_times_ := fit_times_ b; val_errors_ := Some (items ++ [e]) |})
  end.

(** [options or FalkonOptions()], the second operand given as [fresh]. *)
Definition options_or (fresh : FalkonOptions) (options : option FalkonOptions)
  : FalkonOptions :=
  match options with
  | Some o => o
  | None => fresh
  end.

Section Falkon.

(** Helpers of the library that live outside [model_utils]. *)
Variable check_random_generator : option Z -> outcome nat.
Variable decide_cuda : FalkonOptions -> bool.
Variable default_options : FalkonOptions.
Variable devices_num_gpus : FalkonOptions -> Z.

(** The abstract methods of the solver variant, and what calling the
    error function with a given handle does. *)
Variable _predict : Tensor -> option Tensor -> option Tensor -> ERun Tensor.
Variable _params_to_original_space : Tensor -> nat -> ERun Tensor.
Variable call_error_fn : nat -> Tensor -> Tensor -> ERun error_value.

(** [FalkonBase.__init__]. The assignments between two calls that can
    raise are written as one update of the object. *)
Definition __init__ (kernel : nat) (M : option Z) (center_selection : center_selection_arg)
    (seed : option Z) (error_fn : option nat) (error_every : option Z)
    (options : option FalkonOptions) : ERun unit :=
  (* self.kernel, self.M, self.seed *)
  let+ _ := assign_more (fun a =>
    {| kernel := kernel; error_fn := Estimator.error_fn a;
       error_every := Estimator.error_every a;
       center_selection := Estimator.center_selection a |}) in
  let+ _ := assign_base (fun b =>
    {| ModelUtils.M := M; ModelUtils.seed := seed; random_state_ := random_state_ b;
       ModelUtils.options := ModelUtils.options b; use_cuda_ := use_cuda_ b;
       num_gpus := num_gpus b; alpha_ := alpha_ b; ny_points_ := ny_points_ b;
       fit_times_ := fit_times_ b; val_errors_ := val_errors_ b |}) in
  let+ _ := match seed with
            | Some s => manual_seed s
            | None => eret tt
            end in
  let+ generator := of_outcome (check_random_generator seed) in
  (* self.random_state_ ... self.val_errors_ *)
  let opts := options_or default_options options in
  let+ _ := assign_more (fun a =>
    {| kernel := Estimator.kernel a; error_fn := error_fn; error_every := error_every;
       center_selection := Estimator.center_selection a |}) in
  let+ _ := assign_base (fun b =>
    {| ModelUtils.M := ModelUtils.M b; ModelUtils.seed := ModelUtils.seed b;
       random_state_ := generator; ModelUtils.options := opts;
       use_cuda_ := decide_cuda opts; num_gpus := 0;
       alpha_ := None; ny_points_ := None; fit_times_ := None; val_errors_ := None |}) in
  let+ selector := lift (_init_center_selection center_selection) in
  assign_more (fun a =>
    {| kernel := Estimator.kernel a; error_fn := Estimator.error_fn a;
       error_every := Estimator.error_every a; center_selection := Some selector |}).

Definition _init_cuda : ERun unit :=
  let+ use_cuda := attr (fun w => use_cuda_ (this w)) in
  if use_cuda then
    let+ _ := cuda_init in
    assign_base (fun b =>
      {| M := M b; seed := seed b; random_state_ := random_state_ b;
         options := options b; use_cuda_ := use_cuda_ b;
         num_gpus := devices_num_gpus (options b);
         alpha_ := alpha_ b; ny_points_ := ny_points_ b;
         fit_times_ := fit_times_ b; val_errors_ := val_errors_ b |})
  else eret tt.

(** [self.error_fn(Y, pred)] *)
Definition error_fn_of_self (Y pred : Tensor) : ERun error_value :=
  let+ fn := attr (fun w => error_fn (more w)) in
  match fn with
  | None => throw NoneTypeError
  | Some f => call_error_fn f Y pred
  end.

(** The closure [val_cback] built by [_get_callback_fn], with the
    variables it captures as its first arguments. *)
Definition val_cback (X Y Xts Yts : option Tensor) (ny_points : Tensor) (precond : nat)
    (it : Z) (beta : Tensor) (train_time : Z) : ERun unit :=
  let+ fn := attr (fun w => error_fn (more w)) in
  let+ _ := assert_ (negb (is_None fn)) "" in
  let+ times := attr (fun w => fit_times_ (this w)) in
  let+ _ := assert_ (negb (is_None times)) "" in
  let+ errors := attr (fun w => val_errors_ (this w)) in
  let+ _ := assert_ (negb (is_None errors)) "" in
  let+ preparation := first_item times in
  let+ _ := append_fit_time (preparation + train_time) in
  let+ every := attr (fun w => error_every (more w)) in
  let+ remainder := pymod it every in
  if negb (remainder =? 0) then
    let+ times := attr (fun w => fit_times_ (this w)) in
    let+ elapsed := last_item times in
    print_line (LineElapsed it elapsed)
  else
    let err_str := match Xts, Yts with
                   | Some _, Some _ => "validation"%string
                   | _, _ => "training"%string
                   end in
    let+ alpha := _params_to_original_space beta precond in
    let+ err :=
      match Xts, Yts with
      | Some xts, Some yts =>
          let+ pred := _predict xts (Some ny_points) (Some alpha) in
          error_fn_of_self yts pred
      | _, _ =>
          let+ _ := assert_ (negb (is_None X) && negb (is_None Y)) "" in
          match X, Y with
          | Some x, Some y =>
              let+ pred := _predict x (Some ny_points) (Some alpha) in
              error_fn_of_self y pred
          | _, _ => throw (AssertionFailure "")
          end
      end in
    let '(err, err_name) := match err with
                            | Plain e => (e, "error"%string)
                            | Named e name => (e, name)
                            end in
    let+ times := attr (fun w => fit_times_ (this w)) in
    let+ elapsed := last_item times in
    let+ _ := print_line (LineError it elapsed err_str err_name err) in
    append_val_error err.

Definition _get_callback_fn (X Y Xts Yts : option Tensor) (ny_points : Tensor)
    (precond : nat) : ERun (Z -> Tensor -> Z -> ERun unit) :=
  let+ _ := assert_ (negb (is_None X && is_None Xts))
              "At least one of `X` or `Xts` must be specified" in
  let+ _ := assert_ (negb (is_None Y && is_None Yts))
              "At least one of `Y` or `Yts` must be specified" in
  let+ fn := attr (fun w => error_fn (more w)) in
  let+ _ := assert_ (negb (is_None fn)) "Error function must be specified for callbacks" in
  eret (val_cback X Y Xts Yts ny_points precond).

End Falkon.

End Estimator.

(** ** Sample inputs *)

Module Samples.

Import ModelUtils.

(** Element sizes in bytes, for the examples. *)
Definition sizeof_dtype_bytes (dt : torch_dtype) : Z :=
  match dt with
  | float32 => 4
  | float64 => 8
  end.

(** A stand-in for the library's [is_f_contig] in the examples: a matrix
    stored column by column; under [strict] a matrix with a single row or
    a single column does not count. *)
Definition is_f_contig_sample (t : Tensor) (strict : bool) : bool :=
  match shape t, stride t with
  | [n; m], [s0; s1] =>
      if (strict && ((n =? 1) || (m =? 1)))%bool then false
      else ((s0 =? 1) && (n <=? s1))%bool
  | _, _ => false
  end.

Definition keops_on (_ _ : Tensor) (_ : FalkonOptions) : bool := true.

(** A solver variant whose [_predict] hands back the coefficients. *)
Definition predict_sample (X : Tensor) (ny_points alpha : option Tensor) : Run Tensor :=
  ret (default X alpha).

Definition opts (threshold : Z) (never dbg : bool) : FalkonOptions :=
  {| never_store_kernel := never; store_kernel_d_threshold := threshold; debug := dbg |}.

Definition model (o : FalkonOptions) (m : option Z) : FalkonBase :=
  {| M := m; seed := None; random_state_ := 0; options := o; use_cuda_ := false;
     num_gpus := 0; alpha_ := None; ny_points_ := None;
     fit_times_ := None; val_errors_ := None |}.

Definition start (o : FalkonOptions) (m : option Z) : state :=
  {| self := model o m; next_id := 10; trace := [] |}.

(** 4 x 3 data, stored row by row. *)
Definition X43 : Tensor :=
  {| obj_id := 0; shape := [4; 3]; stride := [3; 1]; dtype := float64;
     device := cpu; requires_grad := false;
     values := [1; 2; 3; 4; 5; 6; 7; 8; 9; 10; 11; 12] |}.

(** 2 x 3 centers. *)
Definition C23 : Tensor :=
  {| obj_id := 1; shape := [2; 3]; stride := [3; 1]; dtype := float64;
     device := cpu; requires_grad := false;
     values := [1; 2; 3; 4; 5; 6] |}.

(** 4 x 2 targets, stored column by column. *)
Definition Y42f : Tensor :=
  {| obj_id := 2; shape := [4; 2]; stride := [1; 4]; dtype := float64;
     device := cpu; requires_grad := false;
     values := [1; 0; 0; 1; 1; 0; 0; 1] |}.

(** The same column-major targets, recorded by autograd. *)
Definition Y42f_grad : Tensor :=
  {| obj_id := 12; shape := [4; 2]; stride := [1; 4]; dtype := float64;
     device := cpu; requires_grad := true;
     values := [1; 0; 0; 1; 1; 0; 0; 1] |}.

(** 4 x 2 targets, stored row by row. *)
Definition Y42c : Tensor :=
  {| obj_id := 3; shape := [4; 2]; stride := [2; 1]; dtype := float64;
     device := cpu; requires_grad := false;
     values := [1; 0; 0; 1; 1; 0; 0; 1] |}.

(** A vector of 4 targets. *)
Definition Y4 : Tensor :=
  {| obj_id := 4; shape := [4]; stride := [1]; dtype := float64;
     device := cpu; requires_grad := false;
     values := [1; 0; 0; 1] |}.

(** 5 single-precision targets. *)
Definition Y5_f32 : Tensor :=
  {| obj_id := 5; shape := [5]; stride := [1]; dtype := float32;
     device := cpu; requires_grad := false;
     values := [1; 0; 0; 1; 1] |}.

(** 4 single-precision targets. *)
Definition Y4_f32 : Tensor :=
  {| obj_id := 6; shape := [4]; stride := [1]; dtype := float32;
     device := cpu; requires_grad := false;
     values := [1; 0; 0; 1] |}.

(** A scalar tensor. *)
Definition Y0 : Tensor :=
  {| obj_id := 7; shape := []; stride := []; dtype := float64;
     device := cpu; requires_grad := false;
     values := [1] |}.

(** 4 x 1 x 2 targets. *)
Definition Y412 : Tensor :=
  {| obj_id := 8; shape := [4; 1; 2]; stride := [2; 2; 1]; dtype := float64;
     device := cpu; requires_grad := false;
     values := [1; 0; 0; 1; 1; 0; 0; 1] |}.

(** The linear kernel on integer points. *)
Definition k_linear (a b : list Z) : Z := dot a b.

Definition A2 : list (list Z) := [[1; 2]; [3; 4]; [5; 6]].
Definition B2 : list (list Z) := [[1; 0]; [0; 1]].
Definition v21 : matrix := {| nrows := 2; ncols := 1; entries := [[1]; [2]] |}.
Definition w31 : matrix := {| nrows := 3; ncols := 1; entries := [[1]; [1]; [1]] |}.

Definition mem1 : memory := {[ 7%nat := zeros 2 1 ]}.

(** A memory checker that passes the options on and never objects, and
    one that finds the budget exceeded when the context is left. *)
Definition checker_quiet (opt : unit) (mem : memory)
  : TestKernels.checked (unit * TestKernels.leave_fn) * memory :=
  (TestKernels.Passed (opt, fun _ m => (TestKernels.Passed false, m)), mem).

Definition checker_strict (opt : unit) (mem : memory)
  : TestKernels.checked (unit * TestKernels.leave_fn) * memory :=
  (TestKernels.Passed (opt, fun _ m => (TestKernels.Failed 1, m)), mem).

(** 2 x 1 coefficients. *)
Definition alpha21 : Tensor :=
  {| obj_id := 9; shape := [2; 1]; stride := [1; 1]; dtype := float64;
     device := cpu; requires_grad := false;
     values := [1; 1] |}.

(** A fitted model: centers C23 and coefficients alpha21. *)
Definition fitted (o : FalkonOptions) : state :=
  {| self := {| M := Some 2; seed := None; random_state_ := 0; options := o;
                use_cuda_ := false; num_gpus := 0; alpha_ := Some alpha21;
                ny_points_ := Some C23; fit_times_ := Some [5]; val_errors_ := Some [] |};
     next_id := 10; trace := [] |}.

Import Estimator.

(** An estimator in the middle of a fit, with the given histories, error
    function and reporting period. *)
Definition running (times errors : option (list Z)) (fn : option nat) (every : option Z)
  : world :=
  {| base := {| self := {| M := Some 2; seed := None; random_state_ := 0;
                           options := opts 2 false false; use_cuda_ := false;
                           num_gpus := 0; alpha_ := None; ny_points_ := None;
                           fit_times_ := times; val_errors_ := errors |};
                next_id := 10; trace := [] |};
     more := {| kernel := 0; error_fn := fn; error_every := every;
                center_selection := None |};
     seeds := []; cuda_inits := 0; console := [] |}.

Definition generator_sample (seed : option Z) : outcome nat :=
  Ok (match seed with
      | Some s => Z.to_nat s
      | None => 0%nat
      end).

Definition no_cuda (_ : FalkonOptions) : bool := false.
Definition with_cuda (_ : FalkonOptions) : bool := true.
Definition two_gpus (_ : FalkonOptions) : Z := 2.

(** [Falkon(kernel, M, center_selection, seed)] on a machine with or
    without CUDA, with default options of threshold 1200. *)
Definition construct (cuda : FalkonOptions -> bool) (M : option Z)
    (center_selection : center_selection_arg) (seed : option Z)
  : result unit * world :=
  __init__ generator_sample cuda (opts 1200 false false)
    0%nat M center_selection seed None (Some 1) None (running None None None None).

(** Solver methods that return without touching the state. *)
Definition params_sample (beta : Tensor) (precond : nat) : ERun Tensor := eret beta.

Definition solver_sample (X : Tensor) (ny_points alpha : option Tensor) : ERun Tensor :=
  eret X.

Definition mse_sample (f : nat) (Y pred : Tensor) : ERun error_value :=
  eret (Named 3 "mse").

End Samples.

(** ** Properties of the layout helpers *)

Module TorchFacts.

Lemma dtype_eqb_eq (a b : torch_dtype) : dtype_eqb a b = true <-> a = b.
Proof. destruct a, b; simpl; split; congruence. Qed.

Lemma device_eqb_eq (a b : torch_device) : device_eqb a b = true <-> a = b.
Proof.
  destruct a as [|i], b as [|j]; simpl; split; try congruence.
  - intros H. apply Nat.eqb_eq in H. now subst.
  - intros H. injection H as ->. apply Nat.eqb_refl.
Qed.

(** Without an axis of size 0, the strides of a fresh C-ordered array
    pass numpy's contiguity scan, and both scans end on the same block
    size. *)
Lemma c_contig_from_c_strides (sizes : list Z) :
  existsb (Z.eqb 0) sizes = false ->
  c_contig_from sizes (fst (c_strides_from sizes)) = (true, snd (c_strides_from sizes)).
Proof.
  induction sizes as [|d rest IH]; simpl; [reflexivity|].
  intros H. apply orb_false_elim in H as [Hd Hrest].
  specialize (IH Hrest).
  destruct (c_strides_from rest) as [strides sd] eqn:E. simpl in *.
  rewrite IH.
  assert ((d =? 0) = false) as -> by (rewrite Z.eqb_sym; exact Hd).
  destruct (d =? 1) eqn:E1; simpl.
  - apply Z.eqb_eq in E1. subst d. now rewrite Z.mul_1_r.
  - now rewrite Z.eqb_refl.
Qed.

Lemma c_strides_contiguous (sizes : list Z) :
  is_c_contiguous sizes (c_strides sizes) = true.
Proof.
  unfold is_c_contiguous, c_strides.
  destruct (existsb (Z.eqb 0) sizes) eqn:E; [reflexivity|].
  now rewrite c_contig_from_c_strides.
Qed.

(** [np.asarray(a, order="C")] is C-contiguous and keeps shape, element
    type and elements. *)
Lemma np_asarray_C_spec (a : ndarray) :
  is_c_contiguous (np_shape (np_asarray_C a)) (np_strides (np_asarray_C a)) = true
  /\ np_shape (np_asarray_C a) = np_shape a
  /\ np_dtype (np_asarray_C a) = np_dtype a
  /\ np_values (np_asarray_C a) = np_values a.
Proof.
  unfold np_asarray_C.
  destruct (is_c_contiguous (np_shape a) (np_strides a)) eqn:E; simpl;
    auto using c_strides_contiguous.
Qed.

End TorchFacts.

(** ** Properties of [FalkonBase] *)

Module ModelUtilsSpec.

Import ModelUtils TorchFacts.

(** Unfolds one layer of the interpreter. *)
Ltac run :=
  unfold bind, get_self, set_self, ret, raise, when, print, warnings_warn, emit,
    new_object, shape_at; simpl.

Section Methods.

Variable sizeof_dtype : torch_dtype -> Z.
Variable is_f_contig : Tensor -> bool -> bool.
Variable should_use_keops : Tensor -> Tensor -> FalkonOptions -> bool.
Variable _predict : Tensor -> option Tensor -> option Tensor -> Run Tensor.

(** *** The decision to store K_NM *)

(** With a small D nothing is stored, whatever the budget and the
    options, and nothing is printed. *)
Lemma can_store_knm_small_d X ny_points available_ram st N D :
  shape X = [N; D] ->
  D <= store_kernel_d_threshold (options (self st)) ->
  _can_store_knm sizeof_dtype X ny_points available_ram st = (Ok (PyBool false), st).
Proof.
  intros HX HD. unfold _can_store_knm. run.
  destruct (never_store_kernel (options (self st))); [reflexivity|].
  rewrite HX. simpl.
  destruct (D >? store_kernel_d_threshold (options (self st))) eqn:E; [lia|reflexivity].
Qed.

(** With a large D and a budget above N*M*sizeof(dtype), the answer is
    [True] unless [never_store_kernel] is set. *)
Lemma can_store_knm_fits X ny_points available_ram st N D Mc rest :
  shape X = [N; D] -> shape ny_points = Mc :: rest ->
  never_store_kernel (options (self st)) = false ->
  D > store_kernel_d_threshold (options (self st)) ->
  available_ram > N * Mc * sizeof_dtype (dtype X) ->
  fst (_can_store_knm sizeof_dtype X ny_points available_ram st) = Ok (PyBool true).
Proof.
  intros HX HC Hnever HD Hram. unfold _can_store_knm. run.
  rewrite Hnever, HX, HC. simpl.
  destruct (D >? store_kernel_d_threshold (options (self st))) eqn:E; [|lia].
  destruct (available_ram >? N * Mc * sizeof_dtype (dtype X)) eqn:E2; [|lia].
  destruct (debug (options (self st))); reflexivity.
Qed.

(** With a large D and a budget of at most N*M*sizeof(dtype), the method
    returns normally with [False] or [None]: the caller does not store. *)
Lemma can_store_knm_does_not_fit X ny_points available_ram st N D Mc rest :
  shape X = [N; D] -> shape ny_points = Mc :: rest ->
  D > store_kernel_d_threshold (options (self st)) ->
  available_ram <= N * Mc * sizeof_dtype (dtype X) ->
  exists v, fst (_can_store_knm sizeof_dtype X ny_points available_ram st) = Ok v
            /\ truthy v = false.
Proof.
  intros HX HC HD Hram. unfold _can_store_knm. run.
  destruct (never_store_kernel (options (self st))); [now exists (PyBool false)|].
  rewrite HX, HC. simpl.
  destruct (D >? store_kernel_d_threshold (options (self st))) eqn:E; [|lia].
  destruct (available_ram >? N * Mc * sizeof_dtype (dtype X)) eqn:E2; [lia|].
  destruct (debug (options (self st))); simpl; eauto.
Qed.

(** C1 (as the code has it): for X of shape N x D and M centers, if D is
    at most the threshold nothing is stored whatever the budget; if D is
    above the threshold, [never_store_kernel] is off and the budget is
    strictly above N*M*sizeof(dtype), the answer is [True]; if D is above
    the threshold and the budget is at most N*M*sizeof(dtype), the answer
    is not a true value. *)
Theorem can_store_knm_rule X ny_points available_ram st N D Mc rest :
  shape X = [N; D] -> shape ny_points = Mc :: rest ->
  let threshold := store_kernel_d_threshold (options (self st)) in
  let necessary_ram := N * Mc * sizeof_dtype (dtype X) in
  let answer := fst (_can_store_knm sizeof_dtype X ny_points available_ram st) in
  (D <= threshold -> answer = Ok (PyBool false))
  /\ (D > threshold -> never_store_kernel (options (self st)) = false ->
      available_ram > necessary_ram -> answer = Ok (PyBool true))
  /\ (D > threshold -> available_ram <= necessary_ram ->
      exists v, answer = Ok v /\ truthy v = false).
Proof.
  intros HX HC threshold necessary_ram answer. subst threshold necessary_ram answer.
  split; [|split].
  - intros HD. now rewrite (can_store_knm_small_d _ _ _ _ _ _ HX HD).
  - intros HD Hnever Hram. eapply can_store_knm_fits; eauto.
  - intros HD Hram. eapply can_store_knm_does_not_fit; eauto.
Qed.

(** C9: with [never_store_kernel] set the answer is [False] for every
    input, before sizes, threshold or budget are looked at; the state is
    left as it was. *)
Theorem never_store_kernel_overrides X ny_points available_ram st :
  never_store_kernel (options (self st)) = true ->
  _can_store_knm sizeof_dtype X ny_points available_ram st = (Ok (PyBool false), st).
Proof.
  intros H. unfold _can_store_knm. run. now rewrite H.
Qed.

(** When the budget does not suffice and [debug] is off, control reaches
    the end of the method: the [return False] of that case sits inside
    the [elif self.options.debug] branch. *)
Lemma can_store_knm_None X ny_points available_ram st N D Mc rest :
  shape X = [N; D] -> shape ny_points = Mc :: rest ->
  never_store_kernel (options (self st)) = false ->
  debug (options (self st)) = false ->
  D > store_kernel_d_threshold (options (self st)) ->
  available_ram <= N * Mc * sizeof_dtype (dtype X) ->
  _can_store_knm sizeof_dtype X ny_points available_ram st = (Ok PyNone, st).
Proof.
  intros HX HC Hnever Hdebug HD Hram. unfold _can_store_knm. run.
  rewrite Hnever, HX, HC, Hdebug. simpl.
  destruct (D >? store_kernel_d_threshold (options (self st))) eqn:E; [|lia].
  destruct (available_ram >? N * Mc * sizeof_dtype (dtype X)) eqn:E2; [lia|].
  reflexivity.
Qed.

(** *** Center selection *)

(** C8: the name "uniform" in any letter case with M unset raises the
    error asking for M; any other name raises the error naming it; a
    selector object is returned as it is, whatever M is. *)
Theorem init_center_selection_spec st :
  (forall name, lower name = "uniform"%string -> M (self st) = None ->
     _init_center_selection (ByName name) st = (Raise (ValueError MsgMustSpecifyM), st))
  /\ (forall name, lower name <> "uniform"%string ->
        _init_center_selection (ByName name) st
        = (Raise (ValueError (MsgInvalidCenterSelection name)), st))
  /\ (forall selector,
        _init_center_selection (BySelector selector) st = (Ok selector, st)).
Proof.
  split; [|split].
  - intros name Hname HM. unfold _init_center_selection. run.
    rewrite Hname, HM. reflexivity.
  - intros name Hname. unfold _init_center_selection. run.
    destruct (String.eqb (lower name) "uniform") eqn:E; [|reflexivity].
    apply String.eqb_eq in E. contradiction.
  - intros selector. reflexivity.
Qed.

(** With M given, the name "uniform" builds the uniform selector on the
    estimator's random generator. *)
Lemma init_center_selection_uniform st name m :
  lower name = "uniform"%string -> M (self st) = Some m ->
  _init_center_selection (ByName name) st
  = (Ok (UniformSelector (random_state_ (self st)) m), st).
Proof.
  intros Hname HM. unfold _init_center_selection. run. now rewrite Hname, HM.
Qed.

(** *** Layout normalisation *)

(** A strictly F-contiguous tensor that autograd does not record comes
    back as another object, laid out in C order on the device of the
    input, with the same shape, element type and elements; the only
    trace is the warning, when asked for. *)
Lemma to_c_contig_tensor_copy tensor name warn st :
  is_f_contig tensor true = true -> requires_grad tensor = false ->
  exists r st',
    to_c_contig_tensor is_f_contig tensor name warn st = (Ok r, st')
    /\ shape r = shape tensor /\ values r = values tensor
    /\ dtype r = dtype tensor /\ device r = device tensor
    /\ is_c_contiguous (shape r) (stride r) = true
    /\ (next_id st <= obj_id r < next_id st')%nat
    /\ self st' = self st
    /\ trace st' = trace st ++ (if warn then [Warning name (stride tensor)] else [])
    /\ requires_grad r = false.
Proof.
  intros Hf Hg. unfold to_c_contig_tensor. rewrite Hf.
  pose proof (np_asarray_C_spec
                {| np_shape := shape tensor; np_strides := stride tensor;
                   np_dtype := dtype tensor; np_values := values tensor |})
    as (Hc & Hs & Hd & Hv).
  unfold Tensor_cpu, Tensor_numpy, numpy, from_numpy, Tensor_to.
  destruct tensor as [i sh str dt dev grad vals]. simpl in *. subst grad.
  destruct warn, dev as [|j]; run; eexists; eexists;
    (split; [reflexivity|]); simpl;
    rewrite ?Hs, ?Hd, ?Hv, ?app_nil_r; repeat split; auto; try lia;
    try (rewrite <- Hs at 1; exact Hc).
Qed.

(** A strictly F-contiguous tensor that autograd records is refused by
    [numpy()]: the call raises after the warning, if one was asked for. *)
Lemma to_c_contig_tensor_refused tensor name warn st :
  is_f_contig tensor true = true -> requires_grad tensor = true ->
  exists st',
    to_c_contig_tensor is_f_contig tensor name warn st
    = (Raise (RuntimeError MsgNumpyRequiresGrad), st')
    /\ self st' = self st /\ (next_id st <= next_id st')%nat
    /\ trace st' = trace st ++ (if warn then [Warning name (stride tensor)] else []).
Proof.
  intros Hf Hg. unfold to_c_contig_tensor. rewrite Hf.
  unfold Tensor_cpu, Tensor_numpy, numpy, from_numpy, Tensor_to.
  destruct tensor as [i sh str dt dev grad vals]. simpl in *. subst grad.
  destruct warn, dev as [|j]; run; eexists; (split; [reflexivity|]); simpl;
    rewrite ?app_nil_r; repeat split; auto; lia.
Qed.

(** A tensor that is not strictly F-contiguous is handed back itself. *)
Lemma to_c_contig_tensor_same tensor name warn st :
  is_f_contig tensor true = false ->
  to_c_contig_tensor is_f_contig tensor name warn st = (Ok tensor, st).
Proof. intros Hf. unfold to_c_contig_tensor. now rewrite Hf. Qed.

(** C10 (as the code has it): [None] gives [None]; a tensor that is not
    strictly F-contiguous is returned as the identical object and nothing
    else happens; a strictly F-contiguous tensor that does not require
    grad is returned as a new object in C order with the elements, shape
    and element type of the input, on the device of the input. *)
Theorem to_c_contig_spec name warn st :
  to_c_contig is_f_contig None name warn st = (Ok None, st)
  /\ (forall tensor, is_f_contig tensor true = false ->
        to_c_contig is_f_contig (Some tensor) name warn st = (Ok (Some tensor), st))
  /\ (forall tensor, is_f_contig tensor true = true ->
        requires_grad tensor = false ->
        (obj_id tensor < next_id st)%nat ->
        exists r st',
          to_c_contig is_f_contig (Some tensor) name warn st = (Ok (Some r), st')
          /\ obj_id r <> obj_id tensor
          /\ is_c_contiguous (shape r) (stride r) = true
          /\ values r = values tensor /\ shape r = shape tensor
          /\ dtype r = dtype tensor /\ device r = device tensor).
Proof.
  split; [reflexivity|split].
  - intros tensor Hf. unfold to_c_contig, bind.
    now rewrite to_c_contig_tensor_same.
  - intros tensor Hf Hg Hid.
    destruct (to_c_contig_tensor_copy tensor name warn st Hf Hg)
      as (r & st' & H & Hs & Hv & Hd & Hdev & Hc & Hr & _).
    exists r, st'. unfold to_c_contig, bind. rewrite H.
    repeat split; auto. lia.
Qed.

(** *** Prediction *)

(** C5: while [alpha_] or [ny_points_] is unset, [predict] raises the
    not-trained error. The outcome is the same for every [_predict], so
    the solver is not entered, and the whole state (estimator, trace,
    allocator) is the one before the call. *)
Theorem predict_before_fit X st :
  alpha_ (self st) = None \/ ny_points_ (self st) = None ->
  predict is_f_contig should_use_keops _predict X st
  = (Raise (RuntimeError MsgNotTrained), st).
Proof.
  intros H. unfold predict, _check_predict_inputs. run.
  destruct H as [H|H]; rewrite H; [reflexivity|].
  destruct (alpha_ (self st)); reflexivity.
Qed.

(** After a fit, the inputs are accepted and the solver is entered with
    the stored centers and coefficients. *)
Lemma predict_after_fit X st a c :
  alpha_ (self st) = Some a -> ny_points_ (self st) = Some c ->
  should_use_keops X c (options (self st)) = false ->
  predict is_f_contig should_use_keops _predict X st = _predict X (Some c) (Some a) st.
Proof.
  intros Ha Hc Hk. unfold predict, _check_predict_inputs. run.
  rewrite Ha, Hc, Hk. simpl. now rewrite Ha, Hc.
Qed.

(** *** Validation of the fit inputs *)

(** A vector of targets is viewed as a single column. *)
Lemma unsqueeze_vector Y n st :
  shape Y = [n] ->
  exists Y', unsqueeze Y 1 st
             = (Ok Y', {| self := self st; next_id := S (next_id st); trace := trace st |})
    /\ shape Y' = [n; 1] /\ values Y' = values Y
    /\ dtype Y' = dtype Y /\ device Y' = device Y /\ obj_id Y' = next_id st
    /\ requires_grad Y' = requires_grad Y.
Proof.
  intros H. unfold unsqueeze, dim. rewrite H. run.
  eexists. split; [reflexivity|]. simpl. auto 10.
Qed.

(** Different row counts stop the validation at its first check. *)
Lemma check_fit_inputs_rows X Y Xts Yts st nx ny :
  shape X !! 0%nat = Some nx -> shape Y !! 0%nat = Some ny -> nx <> ny ->
  _check_fit_inputs is_f_contig should_use_keops X Y Xts Yts st
  = (Raise (ValueError (MsgSampleMismatch nx ny)), st).
Proof.
  intros HX HY Hne. unfold _check_fit_inputs. run. rewrite HX, HY. simpl.
  destruct (nx =? ny) eqn:E; [apply Z.eqb_eq in E; contradiction|reflexivity].
Qed.

(** With equal row counts, three or more axes in Y stop the validation
    at the rank check, whatever the element types are. *)
Lemma check_fit_inputs_rank X Y Xts Yts st n :
  shape X !! 0%nat = Some n -> shape Y !! 0%nat = Some n -> (3 <= dim Y)%nat ->
  _check_fit_inputs is_f_contig should_use_keops X Y Xts Yts st
  = (Raise (ValueError (MsgTargetRank (dim Y))), st).
Proof.
  intros HX HY H3. unfold _check_fit_inputs, dim in *. run. rewrite HX, HY. simpl.
  rewrite Z.eqb_refl. simpl.
  destruct (shape Y) as [|a [|b [|c rest]]] eqn:E; simpl in H3; try lia.
  simpl. rewrite E. reflexivity.
Qed.

(** With equal row counts and a Y of one or two axes, different element
    types raise [TypeError]; nothing has been printed, warned or copied. *)
Lemma check_fit_inputs_dtype X Y Xts Yts st n :
  shape X !! 0%nat = Some n -> shape Y !! 0%nat = Some n ->
  (dim Y = 1 \/ dim Y = 2)%nat -> dtype X <> dtype Y ->
  exists st',
    _check_fit_inputs is_f_contig should_use_keops X Y Xts Yts st
    = (Raise (TypeError MsgDtypeMismatch), st')
    /\ self st' = self st /\ trace st' = trace st.
Proof.
  intros HX HY Hdim Hdt. unfold _check_fit_inputs. run. rewrite HX, HY. simpl.
  rewrite Z.eqb_refl. simpl.
  assert (Hneq : forall Y', dtype Y' = dtype Y -> check_same_dtype X Y' = false).
  { intros Y' E. unfold check_same_dtype. rewrite E.
    destruct (dtype_eqb (dtype X) (dtype Y)) eqn:E'; [|reflexivity].
    apply dtype_eqb_eq in E'. contradiction. }
  unfold dim in *.
  destruct (shape Y) as [|a [|b [|c rest]]] eqn:E; simpl in Hdim;
    try (exfalso; lia); simpl.
  - destruct (unsqueeze_vector Y a st E) as (Y' & HU & Hsh & _ & Hd & _).
    rewrite HU, Hsh. simpl. rewrite (Hneq Y' Hd). simpl. eauto.
  - rewrite E. simpl. rewrite (Hneq Y eq_refl). simpl. eauto.
Qed.

(** C6: different row counts raise the shape error ([ValueError]) at the
    first check, with the state untouched; different element types raise
    the type error ([TypeError]) when the inputs get as far as that
    check, that is with equal row counts and a Y of one or two axes, and
    then nothing has been printed, warned, copied or computed. (With
    equal row counts and a Y of three or more axes the rank check comes
    first and raises its [ValueError].) *)
Theorem check_fit_inputs_errors X Y Xts Yts st nx ny :
  shape X !! 0%nat = Some nx -> shape Y !! 0%nat = Some ny ->
  let r := _check_fit_inputs is_f_contig should_use_keops X Y Xts Yts st in
  (nx <> ny -> r = (Raise (ValueError (MsgSampleMismatch nx ny)), st))
  /\ (dtype X <> dtype Y -> nx = ny -> (dim Y = 1 \/ dim Y = 2)%nat ->
      fst r = Raise (TypeError MsgDtypeMismatch)
      /\ self (snd r) = self st /\ trace (snd r) = trace st)
  /\ (nx = ny -> (3 <= dim Y)%nat ->
      r = (Raise (ValueError (MsgTargetRank (dim Y))), st)).
Proof.
  intros HX HY r. subst r. split; [|split].
  - intros Hne. now apply check_fit_inputs_rows.
  - intros Hdt -> Hdim.
    destruct (check_fit_inputs_dtype X Y Xts Yts st ny HX HY Hdim Hdt)
      as (st' & H & Hs & Ht).
    rewrite H. simpl. auto.
  - intros -> H3. now apply (check_fit_inputs_rank X Y Xts Yts st ny).
Qed.

(** C7 at the failing inputs: a Y without axes never reaches the rank
    check that raises "Y is expected 1D or 2D": reading its row count in
    the first check raises [IndexError]. *)
Theorem check_fit_inputs_scalar_target X Y Xts Yts st n :
  shape X !! 0%nat = Some n -> shape Y = [] ->
  dim Y = 0%nat
  /\ _check_fit_inputs is_f_contig should_use_keops X Y Xts Yts st = (Raise IndexError, st).
Proof.
  intros HX HY. unfold dim. rewrite HY. split; [reflexivity|].
  unfold _check_fit_inputs. run. now rewrite HX, HY.
Qed.

End Methods.

(** *** The statements at sample inputs *)

Import Samples.

(** X is 4 x 3 in double precision and there are 2 centers, so K_NM
    takes 4 * 2 * 8 = 64 bytes. With threshold 2: a budget of 100 stores,
    a budget of 64 does not; with threshold 1200 nothing is stored. *)
Lemma can_store_knm_rule_witness :
  fst (_can_store_knm sizeof_dtype_bytes X43 C23 100 (start (opts 2 false false) None))
    = Ok (PyBool true)
  /\ (exists v,
        fst (_can_store_knm sizeof_dtype_bytes X43 C23 64 (start (opts 2 false false) None))
          = Ok v /\ truthy v = false)
  /\ fst (_can_store_knm sizeof_dtype_bytes X43 C23 100 (start (opts 1200 false false) None))
       = Ok (PyBool false).
Proof.
  split; [|split].
  - apply (proj1 (proj2 (can_store_knm_rule sizeof_dtype_bytes X43 C23 100
             (start (opts 2 false false) None) 4 3 2 [3] eq_refl eq_refl)));
      simpl; [lia|reflexivity|lia].
  - apply (proj2 (proj2 (can_store_knm_rule sizeof_dtype_bytes X43 C23 64
             (start (opts 2 false false) None) 4 3 2 [3] eq_refl eq_refl)));
      simpl; lia.
  - apply (proj1 (can_store_knm_rule sizeof_dtype_bytes X43 C23 100
             (start (opts 1200 false false) None) 4 3 2 [3] eq_refl eq_refl));
      simpl; lia.
Defined.

(** C1 as written fails on the code: D = 3 is above the threshold 2 and
    the budget of 64 bytes is exactly N*M*sizeof(dtype), yet the answer
    is [False]; and with [never_store_kernel] set the answer is [False]
    under an ample budget. *)
Lemma can_store_knm_rule_counterexample :
  (3 > store_kernel_d_threshold (opts 2 false true)
   /\ 64 >= 4 * 2 * sizeof_dtype_bytes (dtype X43)
   /\ fst (_can_store_knm sizeof_dtype_bytes X43 C23 64 (start (opts 2 false true) None))
      = Ok (PyBool false))
  /\ (3 > store_kernel_d_threshold (opts 2 true false)
      /\ 1000000 >= 4 * 2 * sizeof_dtype_bytes (dtype X43)
      /\ fst (_can_store_knm sizeof_dtype_bytes X43 C23 1000000
                (start (opts 2 true false) None))
         = Ok (PyBool false)).
Proof. repeat split; simpl; lia. Qed.

(** C2 at a failing input: D = 3 above the threshold 2, [debug] off and a
    budget of 10 bytes for the 64 needed. The method returns [None], which
    is neither [True] nor [False]. *)
Theorem can_store_knm_returns_None :
  _can_store_knm sizeof_dtype_bytes X43 C23 10 (start (opts 2 false false) None)
    = (Ok PyNone, start (opts 2 false false) None)
  /\ is_bool PyNone = false.
Proof. split; reflexivity. Qed.

(** The same input with [debug] on takes the branch that holds the
    [return False]. *)
Example can_store_knm_debug_False :
  fst (_can_store_knm sizeof_dtype_bytes X43 C23 10 (start (opts 2 false true) None))
  = Ok (PyBool false).
Proof. reflexivity. Qed.

Lemma never_store_kernel_overrides_witness :
  _can_store_knm sizeof_dtype_bytes X43 C23 1000000 (start (opts 2 true true) None)
  = (Ok (PyBool false), start (opts 2 true true) None).
Proof.
  apply (never_store_kernel_overrides sizeof_dtype_bytes X43 C23 1000000
           (start (opts 2 true true) None)).
  reflexivity.
Defined.

Lemma init_center_selection_spec_witness :
  _init_center_selection (ByName "UniForm") (start (opts 2 false false) None)
    = (Raise (ValueError MsgMustSpecifyM), start (opts 2 false false) None)
  /\ _init_center_selection (ByName "kmeans") (start (opts 2 false false) (Some 5))
     = (Raise (ValueError (MsgInvalidCenterSelection "kmeans")),
        start (opts 2 false false) (Some 5))
  /\ _init_center_selection (BySelector (CustomSelector 3)) (start (opts 2 false false) None)
     = (Ok (CustomSelector 3), start (opts 2 false false) None).
Proof.
  split; [|split].
  - apply (proj1 (init_center_selection_spec (start (opts 2 false false) None)));
      reflexivity.
  - apply (proj1 (proj2 (init_center_selection_spec (start (opts 2 false false) (Some 5))))).
    simpl. discriminate.
  - apply (proj2 (proj2 (init_center_selection_spec (start (opts 2 false false) None)))).
Defined.

Lemma predict_before_fit_witness :
  predict is_f_contig_sample keops_on predict_sample X43 (start (opts 2 false false) (Some 2))
  = (Raise (RuntimeError MsgNotTrained), start (opts 2 false false) (Some 2)).
Proof.
  apply (predict_before_fit is_f_contig_sample keops_on predict_sample X43
           (start (opts 2 false false) (Some 2))).
  left. reflexivity.
Defined.

(** The column-major Y42f is copied into C order under a fresh identity;
    the row-major Y42c is handed back itself. *)
Lemma to_c_contig_spec_witness :
  to_c_contig is_f_contig_sample (Some Y42c) "Y" true (start (opts 2 false false) None)
    = (Ok (Some Y42c), start (opts 2 false false) None)
  /\ exists r st',
       to_c_contig is_f_contig_sample (Some Y42f) "Y" true (start (opts 2 false false) None)
         = (Ok (Some r), st')
       /\ obj_id r <> obj_id Y42f
       /\ is_c_contiguous (shape r) (stride r) = true
       /\ values r = values Y42f /\ shape r = shape Y42f
       /\ dtype r = dtype Y42f /\ device r = device Y42f.
Proof.
  split.
  - apply (proj1 (proj2 (to_c_contig_spec is_f_contig_sample "Y" true
                           (start (opts 2 false false) None)))).
    reflexivity.
  - apply (proj2 (proj2 (to_c_contig_spec is_f_contig_sample "Y" true
                           (start (opts 2 false false) None)))).
    + reflexivity.
    + reflexivity.
    + simpl. lia.
Defined.

(** C10 as written fails on the code: Y42f_grad is strictly F-contiguous
    and requires grad; [numpy()] refuses it, and instead of a C-ordered
    tensor the caller gets [RuntimeError], after the warning. *)
Lemma to_c_contig_spec_counterexample :
  is_f_contig_sample Y42f_grad true = true
  /\ to_c_contig is_f_contig_sample (Some Y42f_grad) "Y" true
       (start (opts 2 false false) None)
     = (Raise (RuntimeError MsgNumpyRequiresGrad),
        {| self := self (start (opts 2 false false) None);
           next_id := next_id (start (opts 2 false false) None);
           trace := [Warning "Y" [1; 4]] |}).
Proof. split; reflexivity. Qed.

Example to_c_contig_Y42f :
  fst (to_c_contig is_f_contig_sample (Some Y42f) "Y" true (start (opts 2 false false) None))
  = Ok (Some {| obj_id := 10; shape := [4; 2]; stride := [2; 1]; dtype := float64;
                device := cpu; requires_grad := false;
                values := [1; 0; 0; 1; 1; 0; 0; 1] |}).
Proof. reflexivity. Qed.

(** Five targets for four samples raise the shape error; four
    single-precision targets for double-precision data raise the type
    error; four samples of three axes raise the shape error of the rank
    check. *)
Lemma check_fit_inputs_errors_witness :
  _check_fit_inputs is_f_contig_sample keops_on X43 Y5_f32 None None
      (start (opts 2 false false) None)
    = (Raise (ValueError (MsgSampleMismatch 4 5)), start (opts 2 false false) None)
  /\ fst (_check_fit_inputs is_f_contig_sample keops_on X43 Y4_f32 None None
            (start (opts 2 false false) None))
     = Raise (TypeError MsgDtypeMismatch)
  /\ _check_fit_inputs is_f_contig_sample keops_on X43 Y412 None None
       (start (opts 2 false false) None)
     = (Raise (ValueError (MsgTargetRank (dim Y412))), start (opts 2 false false) None).
Proof.
  split; [|split].
  - apply (proj1 (check_fit_inputs_errors is_f_contig_sample keops_on X43 Y5_f32 None None
                    (start (opts 2 false false) None) 4 5 eq_refl eq_refl)).
    lia.
  - apply (proj1 (proj2 (check_fit_inputs_errors is_f_contig_sample keops_on X43 Y4_f32
                           None None (start (opts 2 false false) None) 4 4
                           eq_refl eq_refl))).
    + simpl. discriminate.
    + reflexivity.
    + left. reflexivity.
  - apply (proj2 (proj2 (check_fit_inputs_errors is_f_contig_sample keops_on X43 Y412
                           None None (start (opts 2 false false) None) 4 4
                           eq_refl eq_refl))).
    + reflexivity.
    + unfold dim. simpl. lia.
Defined.

(** The checks run in the order rows, rank, element type: inputs that
    differ in row count and in element type stop at the row check. *)
Example check_fit_inputs_rows_first :
  dtype X43 <> dtype Y5_f32
  /\ fst (_check_fit_inputs is_f_contig_sample keops_on X43 Y5_f32 None None
            (start (opts 2 false false) None))
     = Raise (ValueError (MsgSampleMismatch 4 5)).
Proof. split; [discriminate|reflexivity]. Qed.

(** The scalar Y0 for the 4 x 3 data X43. *)
Lemma check_fit_inputs_scalar_target_witness :
  dim Y0 = 0%nat
  /\ _check_fit_inputs is_f_contig_sample keops_on X43 Y0 None None
       (start (opts 2 false false) None)
     = (Raise IndexError, start (opts 2 false false) None).
Proof.
  apply (check_fit_inputs_scalar_target is_f_contig_sample keops_on X43 Y0 None None
           (start (opts 2 false false) None) 4); reflexivity.
Defined.

(** The sibling case that works as intended: three axes reach the rank
    check and get its [ValueError]. *)
Example check_fit_inputs_three_axes :
  fst (_check_fit_inputs is_f_contig_sample keops_on X43 Y412 None None
         (start (opts 2 false false) None))
  = Raise (ValueError (MsgTargetRank 3)).
Proof. reflexivity. Qed.

End ModelUtilsSpec.

(** ** Properties of the matrix operations *)

Module MatrixFacts.

Lemma zip_with_add_zeros_r (r : list Z) (t : nat) :
  length r = t -> zip_with Z.add r (replicate t 0) = r.
Proof.
  revert t. induction r as [|x r IH]; intros [|t] H; simpl in *; try discriminate.
  - reflexivity.
  - rewrite Z.add_0_r. f_equal. apply IH. lia.
Qed.

Lemma zip_with_add_zeros_l (r : list Z) (t : nat) :
  length r = t -> zip_with Z.add (replicate t 0) r = r.
Proof.
  revert t. induction r as [|x r IH]; intros [|t] H; simpl in *; try discriminate.
  - reflexivity.
  - f_equal. apply IH. lia.
Qed.

Lemma rows_add_zeros_r (rows : list (list Z)) (n t : nat) :
  length rows = n -> forallb (fun r => (length r =? t)%nat) rows = true ->
  zip_with (zip_with Z.add) rows (replicate n (replicate t 0)) = rows.
Proof.
  revert n. induction rows as [|r rows IH]; intros [|n] Hn Hall; simpl in *;
    try discriminate; [reflexivity|].
  apply andb_true_iff in Hall as [Hr Hall]. apply Nat.eqb_eq in Hr.
  rewrite zip_with_add_zeros_r by assumption. f_equal. apply IH; [lia|assumption].
Qed.

Lemma rows_add_zeros_l (rows : list (list Z)) (n t : nat) :
  length rows = n -> forallb (fun r => (length r =? t)%nat) rows = true ->
  zip_with (zip_with Z.add) (replicate n (replicate t 0)) rows = rows.
Proof.
  revert n. induction rows as [|r rows IH]; intros [|n] Hn Hall; simpl in *;
    try discriminate; [reflexivity|].
  apply andb_true_iff in Hall as [Hr Hall]. apply Nat.eqb_eq in Hr.
  rewrite zip_with_add_zeros_l by assumption. f_equal. apply IH; [lia|assumption].
Qed.

Lemma dot_zeros (r : list Z) (m : nat) : dot r (replicate m 0) = 0.
Proof.
  unfold dot. revert m. induction r as [|x r IH]; intros [|m]; simpl; try reflexivity.
  rewrite IH. lia.
Qed.

Lemma nth_zeros (j t : nat) : nth j (replicate t 0) 0 = 0.
Proof. revert j. induction t as [|t IH]; intros [|j]; simpl; auto. Qed.

Lemma column_zeros (j m t : nat) : column j (zeros m t) = replicate m 0.
Proof.
  unfold column, zeros. simpl. induction m as [|m IH]; simpl; [reflexivity|].
  now rewrite IH, nth_zeros.
Qed.

Lemma map_const_seq {A} (f : nat -> A) (c : A) (start len : nat) :
  (forall j, f j = c) -> map f (seq start len) = replicate len c.
Proof.
  intros Hf. revert start. induction len as [|len IH]; intros start; simpl; [reflexivity|].
  now rewrite Hf, IH.
Qed.

Lemma map_const_replicate {A B} (l : list A) (c : B) :
  map (fun _ => c) l = replicate (length l) c.
Proof. induction l as [|x l IH]; simpl; [reflexivity|now rewrite IH]. Qed.

(** A product with a zero matrix is the zero matrix. *)
Lemma matmul_zeros (K : matrix) (t : nat) :
  length (entries K) = nrows K ->
  matmul K (zeros (ncols K) t) = Some (zeros (nrows K) t).
Proof.
  intros Hlen. unfold matmul. simpl. rewrite Nat.eqb_refl. f_equal.
  unfold zeros at 2. f_equal. rewrite <- Hlen, <- map_const_replicate.
  apply map_ext. intros r. apply map_const_seq. intros j.
  now rewrite column_zeros, dot_zeros.
Qed.

(** The rows of a product have the length the product declares. *)
Lemma matmul_wf (A B C : matrix) :
  length (entries A) = nrows A -> matmul A B = Some C -> wf_matrix C = true.
Proof.
  unfold matmul, wf_matrix. intros Hlen.
  destruct (ncols A =? nrows B)%nat; [|discriminate]. intros [= <-]. simpl.
  rewrite length_map, Hlen, Nat.eqb_refl. simpl.
  apply forallb_forall. intros r Hr. apply in_map_iff in Hr as (r0 & <- & _).
  rewrite length_map, length_seq. apply Nat.eqb_refl.
Qed.

Lemma madd_zeros_r (A : matrix) :
  wf_matrix A = true -> madd A (zeros (nrows A) (ncols A)) = Some A.
Proof.
  unfold wf_matrix, madd. intros H. apply andb_true_iff in H as [Hlen Hrows].
  apply Nat.eqb_eq in Hlen. simpl. rewrite !Nat.eqb_refl. simpl.
  rewrite rows_add_zeros_r by assumption. now destruct A.
Qed.

Lemma madd_zeros_l (A : matrix) :
  wf_matrix A = true -> madd (zeros (nrows A) (ncols A)) A = Some A.
Proof.
  unfold wf_matrix, madd. intros H. apply andb_true_iff in H as [Hlen Hrows].
  apply Nat.eqb_eq in Hlen. simpl. rewrite !Nat.eqb_refl. simpl.
  rewrite rows_add_zeros_l by assumption. now destruct A.
Qed.

Lemma close_entry_refl (rtol : Q) (x : Z) : (0 <= rtol)%Q -> close_entry rtol x x = true.
Proof.
  intros H. unfold close_entry. apply Qle_bool_iff. rewrite Z.sub_diag. simpl.
  apply Qmult_le_0_compat; [assumption|].
  change 0%Q with (inject_Z 0). rewrite <- Zle_Qle. apply Z.abs_nonneg.
Qed.

(** A matrix is within every tolerance of itself. *)
Lemma allclose_refl (rtol : Q) (A : matrix) : (0 <= rtol)%Q -> allclose rtol A A = true.
Proof.
  intros H. unfold allclose. rewrite !Nat.eqb_refl. simpl.
  induction (entries A) as [|r rows IH]; simpl; [reflexivity|].
  rewrite Nat.eqb_refl, IH, andb_true_r. simpl.
  induction r as [|x r IHr]; simpl; [reflexivity|].
  now rewrite close_entry_refl, IHr.
Qed.

End MatrixFacts.

(** ** Properties of the kernel evaluator against the test contract *)

Module KernelSpec.

Import TestKernels MatrixFacts Samples.

Section Kernel.

Variable k : list Z -> list Z -> Z.

Lemma full_rows (A B : list (list Z)) : length (entries (full k A B)) = nrows (full k A B).
Proof. simpl. apply length_map. Qed.

(** With [w] left out, the zero matrix added to K @ v changes nothing. *)
Lemma dmmv_without_w A B v :
  dmmv k A B (Some v) None = exp_dv (full k A B) v.
Proof.
  unfold dmmv, exp_dv, default. cbn [from_option id].
  destruct (matmul (full k A B) v) as [Kv|] eqn:E; [|reflexivity].
  assert (Hwf : wf_matrix Kv = true) by (eapply matmul_wf; [apply full_rows|exact E]).
  assert (Hshape : nrows Kv = nrows (full k A B) /\ ncols Kv = ncols v).
  { unfold matmul in E. destruct (ncols (full k A B) =? nrows v)%nat; [|discriminate].
    injection E as <-. auto. }
  destruct Hshape as [<- <-]. now rewrite madd_zeros_r.
Qed.

(** With [v] left out, K @ 0 is zero and the sum is [w]. *)
Lemma dmmv_without_v A B w :
  wf_matrix w = true ->
  dmmv k A B None (Some w) = exp_dw (full k A B) w.
Proof.
  intros Hwf. unfold dmmv, exp_dw, default. cbn [from_option id].
  rewrite matmul_zeros by apply full_rows.
  destruct (nrows (full k A B) =? nrows w)%nat eqn:E.
  - apply Nat.eqb_eq in E. rewrite E, madd_zeros_l by assumption. reflexivity.
  - unfold madd, matmul. cbn [nrows ncols zeros transpose]. cbn [nrows ncols] in E.
    now rewrite E.
Qed.

(** C3: on exact numbers, [dmmv] with both operands is the expected
    K^T @ (K @ v + w) of the test fixtures; with [w] left out it is their
    K^T @ (K @ v); with [v] left out it is their K^T @ w for every
    well-formed [w]. An equal result passes the accuracy check at the
    tolerance of either element type. *)
Theorem dmmv_expected A B v w dt :
  let exp_k := full k A B in
  dmmv k A B (Some v) (Some w) = exp_dvw exp_k v w
  /\ dmmv k A B (Some v) None = exp_dv exp_k v
  /\ (wf_matrix w = true -> dmmv k A B None (Some w) = exp_dw exp_k w)
  /\ agrees (_RTOL dt) (exp_dvw exp_k v w) (dmmv k A B (Some v) (Some w)) = true
  /\ agrees (_RTOL dt) (exp_dv exp_k v) (dmmv k A B (Some v) None) = true
  /\ (wf_matrix w = true ->
      agrees (_RTOL dt) (exp_dw exp_k w) (dmmv k A B None (Some w)) = true).
Proof.
  intros exp_k. subst exp_k.
  assert (Htol : (0 <= _RTOL dt)%Q) by (destruct dt; discriminate).
  assert (Hrefl : forall o, agrees (_RTOL dt) o o = true).
  { intros [a|]; simpl; [now apply allclose_refl|reflexivity]. }
  repeat split.
  - apply dmmv_without_w.
  - apply dmmv_without_v.
  - apply Hrefl.
  - rewrite dmmv_without_w. apply Hrefl.
  - intros Hwf. rewrite dmmv_without_v by assumption. apply Hrefl.
Qed.

(** A call without [out] whose value is the expected matrix passes
    [_run_test], under a memory checker that lets the call through and
    leaves the memory alone. *)
Lemma run_test_passes {options : Type}
    (memory_checker : options -> memory -> checked (options * leave_fn) * memory)
    c e dt opt new_opt leave (mem : memory) :
  kernel_value k c = Some e ->
  memory_checker opt mem = (Passed (new_opt, leave), mem) ->
  (forall m, exists b, leave None m = (Passed b, m)) ->
  fst (_run_test memory_checker (fun _ => evaluate k c) e None (_RTOL dt) opt mem) = Ok tt.
Proof.
  intros H Henter Hleave. unfold _run_test, evaluate. rewrite Henter, H.
  destruct (Hleave (<[fresh (dom mem) := e]> mem)) as [b Hb]. rewrite Hb.
  unfold run_checks. rewrite lookup_insert_eq, allclose_refl; [reflexivity|].
  destruct dt; discriminate.
Qed.

(** The three [dmmv] tests pass on every kernel, point sets and operands
    for which the fixture has a value, under such a memory checker. *)
Lemma dmmv_tests_pass {options : Type}
    (memory_checker : options -> memory -> checked (options * leave_fn) * memory)
    A B v w e dt opt new_opt leave (mem : memory) :
  memory_checker opt mem = (Passed (new_opt, leave), mem) ->
  (forall m, exists b, leave None m = (Passed b, m)) ->
  (exp_dv (full k A B) v = Some e ->
     fst (test_dv memory_checker k A B v e dt opt mem) = Ok tt)
  /\ (wf_matrix w = true -> exp_dw (full k A B) w = Some e ->
      fst (test_dw memory_checker k A B w e dt opt mem) = Ok tt)
  /\ (exp_dvw (full k A B) v w = Some e ->
      fst (test_dvw memory_checker k A B v w e dt opt mem) = Ok tt).
Proof.
  intros Henter Hleave. unfold test_dv, test_dw, test_dvw. repeat split.
  - intros He. eapply run_test_passes; eauto. unfold kernel_value.
    now rewrite dmmv_without_w.
  - intros Hwf He. eapply run_test_passes; eauto. unfold kernel_value.
    now rewrite dmmv_without_v.
  - intros He. eapply run_test_passes; eauto.
Qed.

(** With operands of matching shapes the double product is defined. *)
Lemma dmmv_defined A B v w :
  nrows v = length B -> nrows w = length A -> ncols v = ncols w ->
  is_Some (dmmv k A B (Some v) (Some w)).
Proof.
  intros Hv Hw Ht. unfold dmmv, matmul, madd, default. cbn [from_option id nrows ncols full transpose].
  rewrite Hv, Nat.eqb_refl. cbn [nrows ncols].
  rewrite Hw, Ht, !Nat.eqb_refl. cbn [andb nrows ncols]. rewrite Nat.eqb_refl. eauto.
Qed.

(** *** The output buffer *)

(** An evaluation that is given [out] and whose operands fit returns
    [out] and leaves every other address as it was. *)
Lemma evaluate_into_out c p mem r :
  kernel_value k c = Some r ->
  evaluate k c (Some p) mem = (Ok p, <[p := r]> mem).
Proof. intros H. unfold evaluate. now rewrite H. Qed.

(** Without [out] the result goes to an address that was not in use. *)
Lemma evaluate_fresh c (mem : memory) r :
  kernel_value k c = Some r ->
  exists q, evaluate k c None mem = (Ok q, <[q := r]> mem) /\ q ∉ dom mem.
Proof.
  intros H. unfold evaluate. rewrite H. eexists. split; [reflexivity|].
  apply is_fresh.
Qed.

(** C4: for each of the three evaluations called with [out = p], a call
    that returns returns [p], the result is what [p] then holds, and when
    [p] was allocated beforehand the set of allocated addresses is the
    same afterwards; the call does return whenever the operands fit; and
    the pointer check of [_run_test] never fails, whatever the memory
    checker around the call does. *)
Theorem out_buffer_is_returned c p (mem : memory) :
  (forall q mem', evaluate k c (Some p) mem = (Ok q, mem') ->
     q = p /\ mem' !! p = kernel_value k c /\ (p ∈ dom mem -> dom mem' = dom mem))
  /\ (is_Some (kernel_value k c) -> exists mem', evaluate k c (Some p) mem = (Ok p, mem'))
  /\ (forall (options : Type)
             (memory_checker : options -> memory -> checked (options * leave_fn) * memory)
             opt exp rtol,
        fst (_run_test memory_checker (fun _ => evaluate k c) exp (Some p) rtol opt mem)
        <> Raise (AssertionError MsgOutputNotUsed)).
Proof.
  split; [|split].
  - intros q mem'. unfold evaluate.
    destruct (kernel_value k c) as [r|]; [|discriminate].
    intros [= <- <-]. split; [reflexivity|]. split.
    + now rewrite lookup_insert_eq.
    + intros Hp. apply dom_insert_lookup_L. now apply elem_of_dom.
  - intros [r Hr]. exists (<[p := r]> mem). now apply evaluate_into_out.
  - intros options memory_checker opt exp rtol. unfold _run_test, evaluate.
    destruct (memory_checker opt mem) as [[[new_opt leave]|code] mem0]; [|discriminate].
    destruct (kernel_value k c) as [r|].
    + destruct (leave None (<[p := r]> mem0)) as [[b|code] mem2]; [|discriminate].
      unfold run_checks. destruct (mem2 !! p) as [result|]; [|discriminate].
      destruct (allclose rtol exp result); [|discriminate].
      rewrite Nat.eqb_refl. discriminate.
    + destruct (leave (Some (RuntimeError MsgSizeMismatch)) mem0)
        as [[[|]|code] mem2]; discriminate.
Qed.

End Kernel.

(** The linear kernel on three points against two, with v = (1, 2)^T and
    w = (1, 1, 1)^T. *)
Lemma dmmv_expected_witness :
  dmmv k_linear A2 B2 None (Some w31) = exp_dw (full k_linear A2 B2) w31
  /\ agrees (_RTOL float64) (exp_dw (full k_linear A2 B2) w31)
       (dmmv k_linear A2 B2 None (Some w31)) = true.
Proof.
  split.
  - apply (proj1 (proj2 (proj2 (dmmv_expected k_linear A2 B2 v21 w31 float64)))).
    reflexivity.
  - apply (proj2 (proj2 (proj2 (proj2 (proj2
             (dmmv_expected k_linear A2 B2 v21 w31 float64)))))).
    reflexivity.
Defined.

Example dmmv_linear_vw :
  dmmv k_linear A2 B2 (Some v21) (Some w31)
  = Some {| nrows := 2; ncols := 1; entries := [[132]; [168]] |}.
Proof. reflexivity. Qed.

Example dmmv_linear_v :
  dmmv k_linear A2 B2 (Some v21) None
  = Some {| nrows := 2; ncols := 1; entries := [[123]; [156]] |}.
Proof. reflexivity. Qed.

Example dmmv_linear_w :
  dmmv k_linear A2 B2 None (Some w31)
  = Some {| nrows := 2; ncols := 1; entries := [[9]; [12]] |}.
Proof. reflexivity. Qed.

(** The product K @ v written into the buffer at address 7. *)
Lemma out_buffer_is_returned_witness :
  evaluate k_linear (CallMmv A2 B2 v21) (Some 7%nat) mem1
    = (Ok 7%nat, <[7%nat := {| nrows := 3; ncols := 1; entries := [[5]; [11]; [17]] |}]> mem1)
  /\ dom (<[7%nat := {| nrows := 3; ncols := 1; entries := [[5]; [11]; [17]] |}]> mem1)
     = dom mem1.
Proof.
  pose proof (out_buffer_is_returned k_linear (CallMmv A2 B2 v21) 7%nat mem1)
    as (Hret & Hdef & _).
  destruct (Hdef (ex_intro _ _ eq_refl)) as (mem' & Hev).
  assert (Hmem : mem' = <[7%nat := {| nrows := 3; ncols := 1;
                                       entries := [[5]; [11]; [17]] |}]> mem1).
  { unfold evaluate in Hev. simpl in Hev. now injection Hev as <-. }
  subst mem'. split; [exact Hev|].
  apply (Hret _ _ Hev). unfold mem1. set_solver.
Defined.

End KernelSpec.

(** ** Further properties of [FalkonBase] *)

Module ModelUtilsMore.

Import ModelUtils TorchFacts ModelUtilsSpec Estimator Samples.

Section Methods.

Variable sizeof_dtype : torch_dtype -> Z.
Variable is_f_contig : Tensor -> bool -> bool.
Variable should_use_keops : Tensor -> Tensor -> FalkonOptions -> bool.
Variable _predict : Tensor -> option Tensor -> option Tensor -> Run Tensor.

(** *** The decision to store K_NM *)

(** X1: for an X with at least two axes and centers with at least one,
    the answer is [True] exactly when [never_store_kernel] is off, D is
    above the threshold and the budget is strictly above
    N*M*sizeof(dtype). *)
Theorem can_store_knm_True_iff X ny_points available_ram st N D Mc :
  shape X !! 0%nat = Some N -> shape X !! 1%nat = Some D ->
  shape ny_points !! 0%nat = Some Mc ->
  fst (_can_store_knm sizeof_dtype X ny_points available_ram st) = Ok (PyBool true)
  <-> never_store_kernel (options (self st)) = false
      /\ D > store_kernel_d_threshold (options (self st))
      /\ available_ram > N * Mc * sizeof_dtype (dtype X).
Proof.
  intros HN HD HM. unfold _can_store_knm. run. rewrite HN, HD, HM. simpl.
  destruct (never_store_kernel (options (self st))); simpl.
  { split; [discriminate|intros [? _]; discriminate]. }
  destruct (D >? store_kernel_d_threshold (options (self st))) eqn:E; simpl.
  - destruct (available_ram >? N * Mc * sizeof_dtype (dtype X)) eqn:E2.
    + destruct (debug (options (self st))); simpl; split; auto; intros _;
        repeat split; lia.
    + destruct (debug (options (self st))); simpl;
        (split; [discriminate|intros (_ & _ & ?); lia]).
  - split; [discriminate|intros (_ & ? & _); lia].
Qed.

(** X2: the method returns [None] exactly on the path where
    [never_store_kernel] and [debug] are off, D is above the threshold
    and the budget is at most N*M*sizeof(dtype). *)
Theorem can_store_knm_None_iff X ny_points available_ram st N D Mc :
  shape X !! 0%nat = Some N -> shape X !! 1%nat = Some D ->
  shape ny_points !! 0%nat = Some Mc ->
  fst (_can_store_knm sizeof_dtype X ny_points available_ram st) = Ok PyNone
  <-> never_store_kernel (options (self st)) = false
      /\ debug (options (self st)) = false
      /\ D > store_kernel_d_threshold (options (self st))
      /\ available_ram <= N * Mc * sizeof_dtype (dtype X).
Proof.
  intros HN HD HM. unfold _can_store_knm. run. rewrite HN, HD, HM. simpl.
  destruct (never_store_kernel (options (self st))); simpl.
  { split; [discriminate|intros [? _]; discriminate]. }
  destruct (D >? store_kernel_d_threshold (options (self st))) eqn:E; simpl.
  - destruct (available_ram >? N * Mc * sizeof_dtype (dtype X)) eqn:E2.
    + destruct (debug (options (self st))); simpl;
        (split; [discriminate|intros (_ & _ & _ & ?); lia]).
    + destruct (debug (options (self st))); simpl.
      * split; [discriminate|intros (_ & ? & _); discriminate].
      * split; auto. intros _. repeat split; lia.
  - split; [discriminate|intros (_ & _ & ? & _); lia].
Qed.

(** X3: on every input and every path, also a raising one, the method
    leaves the estimator and the allocator alone and prints at most one
    line; with [debug] off the state is exactly the one before. *)
Theorem can_store_knm_frame X ny_points available_ram st :
  let st' := snd (_can_store_knm sizeof_dtype X ny_points available_ram st) in
  self st' = self st /\ next_id st' = next_id st
  /\ (exists printed, trace st' = trace st ++ printed /\ (length printed <= 1)%nat)
  /\ (debug (options (self st)) = false -> st' = st).
Proof.
  assert (Hquiet : forall s : state,
            self s = self s /\ next_id s = next_id s
            /\ (exists printed, trace s = trace s ++ printed /\ (length printed <= 1)%nat)
            /\ (debug (options (self s)) = false -> s = s)).
  { intros s. repeat (split; [reflexivity|]). split; [|reflexivity].
    exists []. rewrite app_nil_r. simpl. split; [reflexivity|lia]. }
  unfold _can_store_knm. run.
  destruct (never_store_kernel (options (self st))); simpl; [apply Hquiet|].
  destruct (shape X !! 1%nat) as [D|]; simpl; [|apply Hquiet].
  destruct (D >? store_kernel_d_threshold (options (self st))); simpl; [|apply Hquiet].
  destruct (shape X !! 0%nat) as [N|]; simpl; [|apply Hquiet].
  destruct (shape ny_points !! 0%nat) as [Mc|]; simpl; [|apply Hquiet].
  destruct (available_ram >? N * Mc * sizeof_dtype (dtype X));
    destruct (debug (options (self st))) eqn:Hdebug; simpl;
    (split; [reflexivity|]); (split; [reflexivity|]);
    (split; [|intros Hoff; first [reflexivity|discriminate Hoff]]);
    first [ exists []; rewrite app_nil_r; split; [reflexivity|simpl; lia]
          | eexists [_]; split; [reflexivity|simpl; lia] ].
Qed.

(** X4: an X with fewer than two axes makes the method raise
    [IndexError] at [X.size(1)], unless [never_store_kernel] is set; so
    do centers without axes once D is above the threshold. *)
Theorem can_store_knm_IndexError X ny_points available_ram st :
  never_store_kernel (options (self st)) = false ->
  (shape X !! 1%nat = None ->
     _can_store_knm sizeof_dtype X ny_points available_ram st = (Raise IndexError, st))
  /\ (forall D, shape X !! 1%nat = Some D ->
        D > store_kernel_d_threshold (options (self st)) ->
        shape ny_points = [] ->
        _can_store_knm sizeof_dtype X ny_points available_ram st = (Raise IndexError, st)).
Proof.
  intros Hnever. split.
  - intros HX. unfold _can_store_knm. run. now rewrite Hnever, HX.
  - intros D HD Hthr Hny. unfold _can_store_knm. run. rewrite Hnever, HD, Hny. simpl.
    destruct (D >? store_kernel_d_threshold (options (self st))) eqn:E; [|lia].
    destruct (shape X !! 0%nat); reflexivity.
Qed.

(** X5: a larger budget never turns a [True] into something else. *)
Theorem can_store_knm_monotone X ny_points ram ram' st :
  ram <= ram' ->
  fst (_can_store_knm sizeof_dtype X ny_points ram st) = Ok (PyBool true) ->
  fst (_can_store_knm sizeof_dtype X ny_points ram' st) = Ok (PyBool true).
Proof.
  intros Hle. unfold _can_store_knm. run.
  destruct (never_store_kernel (options (self st))); simpl; [discriminate|].
  destruct (shape X !! 1%nat) as [D|]; simpl; [|discriminate].
  destruct (D >? store_kernel_d_threshold (options (self st))); simpl; [|discriminate].
  destruct (shape X !! 0%nat) as [N|]; simpl; [|discriminate].
  destruct (shape ny_points !! 0%nat) as [Mc|]; simpl; [|discriminate].
  destruct (ram >? N * Mc * sizeof_dtype (dtype X)) eqn:E.
  - destruct (ram' >? N * Mc * sizeof_dtype (dtype X)) eqn:E'; [|lia].
    destruct (debug (options (self st))); simpl; auto.
  - destruct (debug (options (self st))); simpl; discriminate.
Qed.

(** *** Layout normalisation *)

Lemma same_content_refl t : same_content t t.
Proof. unfold same_content. auto. Qed.

Lemma same_content_trans a b c : same_content a b -> same_content b c -> same_content a c.
Proof. unfold same_content. intros (? & ? & ? & ?) (? & ? & ? & ?). repeat split; congruence. Qed.

(** What one normalisation does, on each of its three paths. *)
Lemma to_c_contig_tensor_outcome tensor name warn st :
  let r := to_c_contig_tensor is_f_contig tensor name warn st in
  self (snd r) = self st
  /\ trace (snd r) = trace st ++ (if (warn && is_f_contig tensor true)%bool
                                  then [Warning name (stride tensor)] else [])
  /\ (forall t', fst r = Ok t' ->
        same_content t' tensor
        /\ (is_f_contig tensor true = false -> t' = tensor /\ snd r = st))
  /\ (is_f_contig tensor true = false \/ requires_grad tensor = false ->
      exists t', fst r = Ok t')
  /\ (is_f_contig tensor true = true -> requires_grad tensor = true ->
      fst r = Raise (RuntimeError MsgNumpyRequiresGrad)).
Proof.
  cbv zeta. destruct (is_f_contig tensor true) eqn:Hf.
  - rewrite andb_true_r. destruct (requires_grad tensor) eqn:Hg.
    + destruct (to_c_contig_tensor_refused is_f_contig tensor name warn st Hf Hg)
        as (st' & H & Hs & _ & Htr).
      rewrite H. simpl. repeat split; auto; try discriminate.
      intros [?|?]; discriminate.
    + destruct (to_c_contig_tensor_copy is_f_contig tensor name warn st Hf Hg)
        as (r & st' & H & Hsh & Hv & Hd & Hdev & _ & _ & Hs & Htr & _).
      rewrite H. simpl. split; [exact Hs|]. split; [exact Htr|].
      split; [|split; [eauto|discriminate]].
      intros t' [= <-]. split; [unfold same_content; auto|discriminate].
  - rewrite to_c_contig_tensor_same by assumption. simpl.
    rewrite andb_false_r, app_nil_r. split; [reflexivity|]. split; [reflexivity|].
    split; [|split; [eauto|discriminate]].
    intros t' [= <-]. split; [apply same_content_refl|auto].
Qed.

(** The same for an argument that may be [None]. *)
Lemma to_c_contig_outcome tensor name warn st :
  let r := to_c_contig is_f_contig tensor name warn st in
  self (snd r) = self st
  /\ (forall t', fst r = Ok t' -> same_content_opt t' tensor)
  /\ ((forall t, tensor = Some t -> requires_grad t = false) -> exists t', fst r = Ok t').
Proof.
  cbv zeta. destruct tensor as [t|]; [|simpl; repeat split; eauto; intros t' [= <-]; exact I].
  pose proof (to_c_contig_tensor_outcome t name warn st) as (Hs & _ & Hok & Hret & _).
  unfold to_c_contig, bind.
  destruct (to_c_contig_tensor is_f_contig t name warn st) as [[t1|e] st1]; simpl in *.
  - split; [exact Hs|]. split; [|eauto].
    intros t' [= <-]. simpl. now apply Hok.
  - split; [exact Hs|]. split; [discriminate|].
    intros Hg. destruct (Hret (or_intror (Hg t eq_refl))) as [t' Ht']. discriminate.
Qed.

(** X6: [to_c_contig] raises exactly when its argument is a strictly
    F-contiguous tensor that requires grad, and what it raises is the
    [RuntimeError] of [numpy()]; otherwise it returns, [None] for [None]
    and for a tensor one with the same shape, elements, element type and
    device. On every path the estimator is untouched and the only thing
    recorded is one warning with the name and the strides of the input,
    exactly when [warn] is set and the input is strictly F-contiguous. *)
Theorem to_c_contig_effect tensor name warn st :
  let r := to_c_contig is_f_contig tensor name warn st in
  let refused := match tensor with
                 | Some t => (is_f_contig t true && requires_grad t)%bool
                 | None => false
                 end in
  self (snd r) = self st
  /\ trace (snd r) = trace st ++ match tensor with
                                 | Some t => if (warn && is_f_contig t true)%bool
                                             then [Warning name (stride t)] else []
                                 | None => []
                                 end
  /\ (refused = true -> fst r = Raise (RuntimeError MsgNumpyRequiresGrad))
  /\ (refused = false -> exists t', fst r = Ok t' /\ same_content_opt t' tensor).
Proof.
  cbv zeta. destruct tensor as [t|].
  - pose proof (to_c_contig_tensor_outcome t name warn st) as (Hs & Htr & Hok & Hret & Hraise).
    unfold to_c_contig, bind.
    destruct (to_c_contig_tensor is_f_contig t name warn st) as [[t1|e] st1]; simpl in *.
    + split; [exact Hs|]. split; [exact Htr|]. split.
      * intros H. apply andb_true_iff in H as [Hf Hg]. now discriminate (Hraise Hf Hg).
      * intros _. exists (Some t1). split; [reflexivity|]. simpl. now apply Hok.
    + split; [exact Hs|]. split; [exact Htr|]. split.
      * intros H. apply andb_true_iff in H as [Hf Hg]. f_equal.
        specialize (Hraise Hf Hg). congruence.
      * intros H. apply andb_false_iff in H. destruct (Hret H) as [t' Ht']. discriminate.
  - simpl. rewrite app_nil_r. repeat split; try discriminate.
    intros _. exists None. split; [reflexivity|exact I].
Qed.

(** The four normalisations of the KeOps branch, one after the other:
    the estimator is untouched on every path; if the branch returns, its
    tensors carry what went in; and it does return when none of the
    tensors requires grad. *)
Lemma keops_branch_outcome X Y Xts Yts st :
  let r := (let* X0 := to_c_contig_tensor is_f_contig X "X" true in
            let* Y0 := to_c_contig_tensor is_f_contig Y "Y" true in
            let* Xts0 := to_c_contig is_f_contig Xts "Xts" true in
            let* Yts0 := to_c_contig is_f_contig Yts "Yts" true in
            ret (X0, Y0, Xts0, Yts0)) st in
  self (snd r) = self st
  /\ (forall X' Y' Xts' Yts', fst r = Ok (X', Y', Xts', Yts') ->
        same_content X' X /\ same_content Y' Y
        /\ same_content_opt Xts' Xts /\ same_content_opt Yts' Yts)
  /\ (requires_grad X = false -> requires_grad Y = false ->
      (forall t, Xts = Some t -> requires_grad t = false) ->
      (forall t, Yts = Some t -> requires_grad t = false) ->
      exists res, fst r = Ok res).
Proof.
  assert (Hbind : forall (A B : Type) (c : Run A) (f : A -> Run B) (s0 : state),
            bind c f s0 = match c s0 with
                          | (Ok a, s1) => f a s1
                          | (Raise e, s1) => (Raise e, s1)
                          end) by reflexivity.
  cbv zeta. rewrite Hbind.
  pose proof (to_c_contig_tensor_outcome X "X" true st) as (Hs1 & _ & Hok1 & Hret1 & _).
  destruct (to_c_contig_tensor is_f_contig X "X" true st) as [[X1|e1] st1]; simpl in *;
    [|split; [exact Hs1|]; split; [discriminate|];
      intros Hg _ _ _; destruct (Hret1 (or_intror Hg)) as [? ?]; discriminate].
  rewrite Hbind.
  pose proof (to_c_contig_tensor_outcome Y "Y" true st1) as (Hs2 & _ & Hok2 & Hret2 & _).
  destruct (to_c_contig_tensor is_f_contig Y "Y" true st1) as [[Y1|e2] st2]; simpl in *;
    [|split; [congruence|]; split; [discriminate|];
      intros _ Hg _ _; destruct (Hret2 (or_intror Hg)) as [? ?]; discriminate].
  rewrite Hbind.
  pose proof (to_c_contig_outcome Xts "Xts" true st2) as (Hs3 & Hok3 & Hret3).
  destruct (to_c_contig is_f_contig Xts "Xts" true st2) as [[Xts1|e3] st3]; simpl in *;
    [|split; [congruence|]; split; [discriminate|];
      intros _ _ Hg _; destruct (Hret3 Hg) as [? ?]; discriminate].
  rewrite Hbind.
  pose proof (to_c_contig_outcome Yts "Yts" true st3) as (Hs4 & Hok4 & Hret4).
  destruct (to_c_contig is_f_contig Yts "Yts" true st3) as [[Yts1|e4] st4]; simpl in *;
    [|split; [congruence|]; split; [discriminate|];
      intros _ _ _ Hg; destruct (Hret4 Hg) as [? ?]; discriminate].
  split; [congruence|]. split; [|eauto].
  intros X' Y' Xts' Yts' [= <- <- <- <-].
  repeat split; try apply Hok1; try apply Hok2; auto.
Qed.

(** *** Validation of the fit inputs *)

(** Inputs that pass the three checks: Y has become a matrix Y1 (a view
    of a vector Y as one column, or Y itself), and what is left is the
    KeOps branch or the plain return. *)
Lemma check_fit_inputs_checked X Y Xts Yts st n :
  shape X !! 0%nat = Some n -> shape Y !! 0%nat = Some n ->
  (dim Y = 1 \/ dim Y = 2)%nat -> dtype X = dtype Y ->
  exists Y1 st1,
    values Y1 = values Y /\ dtype Y1 = dtype Y
    /\ requires_grad Y1 = requires_grad Y /\ dim Y1 = 2%nat
    /\ (dim Y = 1%nat -> shape Y1 = [n; 1])
    /\ (dim Y = 2%nat -> Y1 = Y /\ st1 = st)
    /\ self st1 = self st /\ trace st1 = trace st
    /\ _check_fit_inputs is_f_contig should_use_keops X Y Xts Yts st
       = if should_use_keops X X (options (self st))
         then (let* X0 := to_c_contig_tensor is_f_contig X "X" true in
               let* Y0 := to_c_contig_tensor is_f_contig Y1 "Y" true in
               let* Xts0 := to_c_contig is_f_contig Xts "Xts" true in
               let* Yts0 := to_c_contig is_f_contig Yts "Yts" true in
               ret (X0, Y0, Xts0, Yts0)) st1
         else (Ok (X, Y1, Xts, Yts), st1).
Proof.
  intros HX HY Hdim Hdt.
  unfold _check_fit_inputs. unfold bind at 1. unfold get_self at 1.
  unfold bind at 1. unfold shape_at at 1. rewrite HX. unfold ret at 1.
  unfold bind at 1. unfold shape_at at 1. rewrite HY. unfold ret at 1.
  rewrite Z.eqb_refl. cbn [negb]. unfold bind at 1. unfold dim in *.
  destruct (shape Y) as [|a [|b [|c rest]]] eqn:E; simpl in Hdim;
    try (exfalso; lia); simpl in HY; injection HY as ->.
  - destruct (unsqueeze_vector Y n st E) as (Y1 & HU & Hsh & Hv & Hd & _ & _ & Hg).
    cbn [length Nat.eqb]. rewrite HU.
    exists Y1, {| self := self st; next_id := S (next_id st); trace := trace st |}.
    rewrite Hsh. cbn [length Nat.eqb negb]. unfold check_same_dtype. rewrite Hd.
    rewrite (proj2 (dtype_eqb_eq _ _) Hdt). cbn [negb self].
    repeat split; auto; try discriminate.
    destruct (should_use_keops X X (options (self st))); reflexivity.
  - cbn [length Nat.eqb]. unfold ret at 1. rewrite E. cbn [length Nat.eqb negb].
    unfold check_same_dtype. rewrite (proj2 (dtype_eqb_eq _ _) Hdt). cbn [negb].
    exists Y, st. rewrite E. repeat split; auto; try discriminate.
    destruct (should_use_keops X X (options (self st))); reflexivity.
Qed.

(** With equal row counts, a Y of one or two axes and equal element
    types, the inputs are accepted when KeOps is not selected or no
    tensor requires grad. *)
Lemma check_fit_inputs_accepts X Y Xts Yts st n :
  shape X !! 0%nat = Some n -> shape Y !! 0%nat = Some n ->
  (dim Y = 1 \/ dim Y = 2)%nat -> dtype X = dtype Y ->
  should_use_keops X X (options (self st)) = false
  \/ (requires_grad X = false /\ requires_grad Y = false
      /\ (forall t, Xts = Some t -> requires_grad t = false)
      /\ (forall t, Yts = Some t -> requires_grad t = false)) ->
  exists res, fst (_check_fit_inputs is_f_contig should_use_keops X Y Xts Yts st) = Ok res.
Proof.
  intros HX HY Hdim Hdt Hplain.
  destruct (check_fit_inputs_checked X Y Xts Yts st n HX HY Hdim Hdt)
    as (Y1 & st1 & _ & _ & Hg & _ & _ & _ & _ & _ & ->).
  destruct (should_use_keops X X (options (self st))); [|simpl; eauto].
  destruct Hplain as [?|(HgX & HgY & HgXts & HgYts)]; [discriminate|].
  apply (keops_branch_outcome X Y1 Xts Yts st1); auto. congruence.
Qed.

(** Accepted inputs have passed the three checks. *)
Lemma check_fit_inputs_ok_inv X Y Xts Yts st res :
  fst (_check_fit_inputs is_f_contig should_use_keops X Y Xts Yts st) = Ok res ->
  exists n, shape X !! 0%nat = Some n /\ shape Y !! 0%nat = Some n
            /\ (dim Y = 1 \/ dim Y = 2)%nat /\ dtype X = dtype Y.
Proof.
  intros Hok.
  destruct (shape X !! 0%nat) as [nx|] eqn:HX;
    [|unfold _check_fit_inputs in Hok; revert Hok; run; rewrite HX; discriminate].
  destruct (shape Y !! 0%nat) as [ny|] eqn:HY;
    [|unfold _check_fit_inputs in Hok; revert Hok; run; rewrite HX, HY; discriminate].
  destruct (Z.eq_dec nx ny) as [->|Hne];
    [|rewrite (check_fit_inputs_rows is_f_contig should_use_keops X Y Xts Yts st nx ny)
        in Hok by assumption; discriminate].
  assert (Hcases : (dim Y = 1 \/ dim Y = 2 \/ 3 <= dim Y)%nat).
  { unfold dim. destruct (shape Y) as [|a [|b [|c rest]]]; simpl in *;
      try discriminate; lia. }
  assert (Hlow : (dim Y = 1 \/ dim Y = 2)%nat ->
            exists n, Some ny = Some n /\ Some ny = Some n
                      /\ (dim Y = 1 \/ dim Y = 2)%nat /\ dtype X = dtype Y).
  { intros Hdim. destruct (dtype_eqb (dtype X) (dtype Y)) eqn:Hdt.
    - apply dtype_eqb_eq in Hdt. eauto 10.
    - assert (Hne : dtype X <> dtype Y)
        by (intros Heq; apply dtype_eqb_eq in Heq; congruence).
      destruct (check_fit_inputs_dtype is_f_contig should_use_keops X Y Xts Yts st ny
                  HX HY Hdim Hne) as (st' & H & _).
      rewrite H in Hok. discriminate. }
  destruct Hcases as [H1|[H2|H3]]; [apply Hlow; auto|apply Hlow; auto|].
  rewrite (check_fit_inputs_rank is_f_contig should_use_keops X Y Xts Yts st ny HX HY H3)
    in Hok.
  discriminate.
Qed.

(** X7: for inputs that have a row count, and with KeOps not selected or
    no tensor requiring grad, the validation accepts exactly when the
    row counts agree, Y has one or two axes and the element types
    agree. *)
Theorem check_fit_inputs_accepts_iff X Y Xts Yts st nx ny :
  shape X !! 0%nat = Some nx -> shape Y !! 0%nat = Some ny ->
  should_use_keops X X (options (self st)) = false
  \/ (requires_grad X = false /\ requires_grad Y = false
      /\ (forall t, Xts = Some t -> requires_grad t = false)
      /\ (forall t, Yts = Some t -> requires_grad t = false)) ->
  (exists res, fst (_check_fit_inputs is_f_contig should_use_keops X Y Xts Yts st) = Ok res)
  <-> nx = ny /\ (dim Y = 1 \/ dim Y = 2)%nat /\ dtype X = dtype Y.
Proof.
  intros HX HY Hplain. split.
  - intros [res Hok]. apply check_fit_inputs_ok_inv in Hok as (n & HX' & HY' & Hdim & Hdt).
    repeat split; auto; congruence.
  - intros (-> & Hdim & Hdt).
    now apply (check_fit_inputs_accepts X Y Xts Yts st ny).
Qed.

(** X8: whatever comes out of an accepted validation carries the data
    that went in: X and the validation tensors keep shape, elements,
    element type and device, a missing validation tensor stays missing,
    and Y keeps its elements and element type. *)
Theorem check_fit_inputs_keeps_contents X Y Xts Yts st X' Y' Xts' Yts' :
  fst (_check_fit_inputs is_f_contig should_use_keops X Y Xts Yts st)
  = Ok (X', Y', Xts', Yts') ->
  same_content X' X /\ values Y' = values Y /\ dtype Y' = dtype Y
  /\ same_content_opt Xts' Xts /\ same_content_opt Yts' Yts.
Proof.
  intros Hok. pose proof Hok as Hinv.
  apply check_fit_inputs_ok_inv in Hinv as (n & HX & HY & Hdim & Hdt).
  destruct (check_fit_inputs_checked X Y Xts Yts st n HX HY Hdim Hdt)
    as (Y1 & st1 & Hv & Hd & _ & _ & _ & _ & _ & _ & Heq).
  rewrite Heq in Hok.
  assert (Hopt : forall o : option Tensor, same_content_opt o o).
  { intros [t|]; simpl; [apply same_content_refl|exact I]. }
  destruct (should_use_keops X X (options (self st))).
  - apply (keops_branch_outcome X Y1 Xts Yts st1) in Hok
      as (HcX & (_ & HvY & HdY & _) & HcXts & HcYts).
    repeat split; auto; try apply HcX; congruence.
  - simpl in Hok. injection Hok as <- <- <- <-.
    repeat split; auto; apply same_content_refl.
Qed.

(** X9: on every input and every path, accepting or raising, the
    validation leaves the estimator as it was; and when KeOps is not
    selected it records no warning. *)
Theorem check_fit_inputs_frame X Y Xts Yts st :
  let st' := snd (_check_fit_inputs is_f_contig should_use_keops X Y Xts Yts st) in
  self st' = self st
  /\ (should_use_keops X X (options (self st)) = false -> trace st' = trace st).
Proof.
  cbv zeta.
  destruct (shape X !! 0%nat) as [nx|] eqn:HX;
    [|unfold _check_fit_inputs; run; rewrite HX; auto].
  destruct (shape Y !! 0%nat) as [ny|] eqn:HY;
    [|unfold _check_fit_inputs; run; rewrite HX, HY; auto].
  destruct (Z.eq_dec nx ny) as [->|Hne];
    [|rewrite (check_fit_inputs_rows is_f_contig should_use_keops X Y Xts Yts st nx ny)
        by assumption; auto].
  assert (Hcases : (dim Y = 1 \/ dim Y = 2 \/ 3 <= dim Y)%nat).
  { unfold dim. destruct (shape Y) as [|a [|b [|c rest]]]; simpl in *;
      try discriminate; lia. }
  assert (Hlow : (dim Y = 1 \/ dim Y = 2)%nat ->
            self (snd (_check_fit_inputs is_f_contig should_use_keops X Y Xts Yts st))
            = self st
            /\ (should_use_keops X X (options (self st)) = false ->
                trace (snd (_check_fit_inputs is_f_contig should_use_keops X Y Xts Yts st))
                = trace st)).
  { intros Hdim. destruct (dtype_eqb (dtype X) (dtype Y)) eqn:Hdt.
    - apply dtype_eqb_eq in Hdt.
      destruct (check_fit_inputs_checked X Y Xts Yts st ny HX HY Hdim Hdt)
        as (Y1 & st1 & _ & _ & _ & _ & _ & _ & Hs & Ht & ->).
      destruct (should_use_keops X X (options (self st))).
      + pose proof (keops_branch_outcome X Y1 Xts Yts st1) as (Hself & _).
        split; [congruence|discriminate].
      + simpl. auto.
    - assert (Hne : dtype X <> dtype Y)
        by (intros Heq; apply dtype_eqb_eq in Heq; congruence).
      destruct (check_fit_inputs_dtype is_f_contig should_use_keops X Y Xts Yts st ny
                  HX HY Hdim Hne) as (st' & H & Hs & Ht).
      rewrite H. simpl. auto. }
  destruct Hcases as [H1|[H2|H3]]; [apply Hlow; auto|apply Hlow; auto|].
  rewrite (check_fit_inputs_rank is_f_contig should_use_keops X Y Xts Yts st ny HX HY H3).
  auto.
Qed.

(** *** Prediction *)

(** X10: on a fitted model, when KeOps is not selected, or X is not
    strictly F-contiguous, or X does not require grad, [predict] enters
    the solver with the stored centers and coefficients and with an X
    that has the shape, elements, element type and device of the one
    given; the estimator is as before at that point, and without KeOps
    it is X itself in the same state. In the remaining case, KeOps with a
    strictly F-contiguous X that requires grad, [predict] raises the
    [RuntimeError] of [numpy()]. *)
Theorem predict_fitted X st a c :
  alpha_ (self st) = Some a -> ny_points_ (self st) = Some c ->
  ((should_use_keops X c (options (self st)) = false
    \/ is_f_contig X true = false \/ requires_grad X = false) ->
   exists X' st',
     predict is_f_contig should_use_keops _predict X st = _predict X' (Some c) (Some a) st'
     /\ same_content X' X /\ self st' = self st
     /\ (should_use_keops X c (options (self st)) = false -> X' = X /\ st' = st))
  /\ (should_use_keops X c (options (self st)) = true ->
      is_f_contig X true = true -> requires_grad X = true ->
      fst (predict is_f_contig should_use_keops _predict X st)
      = Raise (RuntimeError MsgNumpyRequiresGrad)).
Proof.
  intros Ha Hc.
  assert (Hpre : predict is_f_contig should_use_keops _predict X st
                 = match (if should_use_keops X c (options (self st))
                          then to_c_contig_tensor is_f_contig X "X" true st
                          else (Ok X, st)) with
                   | (Ok X', st') => _predict X' (ny_points_ (self st')) (alpha_ (self st')) st'
                   | (Raise e, st') => (Raise e, st')
                   end).
  { unfold predict, _check_predict_inputs, bind, get_self, ret. rewrite Ha, Hc.
    destruct (should_use_keops X c (options (self st))); reflexivity. }
  rewrite Hpre. clear Hpre.
  pose proof (to_c_contig_tensor_outcome X "X" true st) as (Hs & _ & Hok & Hret & Hraise).
  destruct (should_use_keops X c (options (self st))).
  - destruct (to_c_contig_tensor is_f_contig X "X" true st) as [[X1|e] st1]; simpl in *.
    + split.
      * intros _. exists X1, st1. rewrite Hs, Ha, Hc.
        split; [reflexivity|]. split; [now apply Hok|]. split; [reflexivity|discriminate].
      * intros _ Hf Hg. discriminate (Hraise Hf Hg).
    + split.
      * intros [?|Hfine]; [discriminate|]. destruct (Hret Hfine) as [? ?]. discriminate.
      * intros _ Hf Hg. exact (Hraise Hf Hg).
  - split; [|discriminate].
    intros _. exists X, st. rewrite Ha, Hc.
    split; [reflexivity|]. split; [apply same_content_refl|]. auto.
Qed.

(** X11: after [_reset_state] the model is unfitted whatever it was
    before: M, seed, generator and options are kept, both histories are
    empty lists, and [predict] raises the not-trained error without
    entering the solver. *)
Theorem reset_state_unfits X st :
  exists st',
    _reset_state st = (Ok tt, st')
    /\ M (self st') = M (self st) /\ seed (self st') = seed (self st)
    /\ random_state_ (self st') = random_state_ (self st)
    /\ options (self st') = options (self st)
    /\ fit_times_ (self st') = Some [] /\ val_errors_ (self st') = Some []
    /\ next_id st' = next_id st /\ trace st' = trace st
    /\ predict is_f_contig should_use_keops _predict X st'
       = (Raise (RuntimeError MsgNotTrained), st').
Proof.
  eexists. split; [reflexivity|]. simpl. repeat split.
Qed.

(** *** Center selection *)

(** X12: [_init_center_selection] never changes the state, and it
    returns a selector in exactly two cases: the selector it was given,
    or, for the name "uniform" in any letter case with M set, the uniform
    selector on the estimator's generator with M centers. *)
Theorem init_center_selection_returns arg st sel :
  snd (_init_center_selection arg st) = st
  /\ (fst (_init_center_selection arg st) = Ok sel
      <-> arg = BySelector sel
          \/ exists name m,
               arg = ByName name /\ lower name = "uniform"%string
               /\ M (self st) = Some m
               /\ sel = UniformSelector (random_state_ (self st)) m).
Proof.
  unfold _init_center_selection. run. destruct arg as [name|selector].
  - destruct (String.eqb (lower name) "uniform") eqn:E.
    + apply String.eqb_eq in E. destruct (M (self st)) as [m|] eqn:HM; simpl.
      * split; [reflexivity|]. split.
        -- intros [= <-]. right. exists name, m. auto.
        -- intros [H|(name' & m' & H & _ & Hm & ->)]; [discriminate|]. congruence.
      * split; [reflexivity|]. split; [discriminate|].
        intros [H|(name' & m' & _ & _ & Hm & _)]; discriminate.
    + simpl. split; [reflexivity|]. split; [discriminate|].
      intros [H|(name' & m' & H & Hl & _)]; [discriminate|].
      injection H as <-. apply String.eqb_neq in E. contradiction.
  - simpl. split; [reflexivity|]. split.
    + intros [= <-]. now left.
    + intros [H|(name' & m' & H & _)]; [|discriminate]. congruence.
Qed.

End Methods.

(** *** The statements at sample inputs *)

Lemma can_store_knm_True_iff_witness :
  fst (_can_store_knm sizeof_dtype_bytes X43 C23 100 (start (opts 2 false false) None))
  = Ok (PyBool true).
Proof.
  apply (proj2 (can_store_knm_True_iff sizeof_dtype_bytes X43 C23 100
                  (start (opts 2 false false) None) 4 3 2 eq_refl eq_refl eq_refl)).
  simpl. repeat split; lia.
Defined.

Lemma can_store_knm_None_iff_witness :
  fst (_can_store_knm sizeof_dtype_bytes X43 C23 64 (start (opts 2 false false) None))
  = Ok PyNone.
Proof.
  apply (proj2 (can_store_knm_None_iff sizeof_dtype_bytes X43 C23 64
                  (start (opts 2 false false) None) 4 3 2 eq_refl eq_refl eq_refl)).
  simpl. repeat split; lia.
Defined.

(** A vector as X, and a scalar as the centers. *)
Lemma can_store_knm_IndexError_witness :
  _can_store_knm sizeof_dtype_bytes Y4 C23 100 (start (opts 2 false false) None)
    = (Raise IndexError, start (opts 2 false false) None)
  /\ _can_store_knm sizeof_dtype_bytes X43 Y0 100 (start (opts 2 false false) None)
     = (Raise IndexError, start (opts 2 false false) None).
Proof.
  split.
  - apply (proj1 (can_store_knm_IndexError sizeof_dtype_bytes Y4 C23 100
                    (start (opts 2 false false) None) eq_refl)).
    reflexivity.
  - apply (proj2 (can_store_knm_IndexError sizeof_dtype_bytes X43 Y0 100
                    (start (opts 2 false false) None) eq_refl) 3).
    + reflexivity.
    + simpl. lia.
    + reflexivity.
Defined.

Lemma can_store_knm_monotone_witness :
  fst (_can_store_knm sizeof_dtype_bytes X43 C23 1000 (start (opts 2 false true) None))
  = Ok (PyBool true).
Proof.
  apply (can_store_knm_monotone sizeof_dtype_bytes X43 C23 65 1000
           (start (opts 2 false true) None)).
  - lia.
  - reflexivity.
Defined.

Lemma check_fit_inputs_accepts_iff_witness :
  exists res,
    fst (_check_fit_inputs is_f_contig_sample keops_on X43 Y42f None (Some Y42f)
           (start (opts 2 false false) None)) = Ok res.
Proof.
  refine (proj2 (check_fit_inputs_accepts_iff is_f_contig_sample keops_on X43 Y42f None
                   (Some Y42f) (start (opts 2 false false) None) 4 4 eq_refl eq_refl _) _).
  - right. repeat split; try reflexivity; intros t Ht; try discriminate Ht.
    injection Ht as <-. reflexivity.
  - repeat split. right. reflexivity.
Defined.

(** Under KeOps the column-major Y42f is copied, as target and as
    validation target; the copies hold what Y42f holds. *)
Lemma check_fit_inputs_keeps_contents_witness :
  same_content X43 X43
  /\ values {| obj_id := 10; shape := [4; 2]; stride := [2; 1]; dtype := float64;
               device := cpu; requires_grad := false;
               values := [1; 0; 0; 1; 1; 0; 0; 1] |} = values Y42f
  /\ dtype {| obj_id := 10; shape := [4; 2]; stride := [2; 1]; dtype := float64;
              device := cpu; requires_grad := false;
              values := [1; 0; 0; 1; 1; 0; 0; 1] |} = dtype Y42f
  /\ same_content_opt None None
  /\ same_content_opt
       (Some {| obj_id := 11; shape := [4; 2]; stride := [2; 1]; dtype := float64;
                device := cpu; requires_grad := false;
                values := [1; 0; 0; 1; 1; 0; 0; 1] |}) (Some Y42f).
Proof.
  apply (check_fit_inputs_keeps_contents is_f_contig_sample keops_on X43 Y42f None
           (Some Y42f) (start (opts 2 false false) None)).
  reflexivity.
Defined.

(** The column-major Y42f goes to the solver as a copy; its twin that
    requires grad stops [predict]. *)
Lemma predict_fitted_witness :
  (exists X' st',
     predict is_f_contig_sample keops_on predict_sample Y42f (fitted (opts 2 false false))
       = predict_sample X' (Some C23) (Some alpha21) st'
     /\ same_content X' Y42f /\ self st' = self (fitted (opts 2 false false))
     /\ (keops_on Y42f C23 (options (self (fitted (opts 2 false false)))) = false ->
         X' = Y42f /\ st' = fitted (opts 2 false false)))
  /\ fst (predict is_f_contig_sample keops_on predict_sample Y42f_grad
            (fitted (opts 2 false false)))
     = Raise (RuntimeError MsgNumpyRequiresGrad).
Proof.
  split.
  - apply (proj1 (predict_fitted is_f_contig_sample keops_on predict_sample Y42f
                    (fitted (opts 2 false false)) alpha21 C23 eq_refl eq_refl)).
    right. right. reflexivity.
  - apply (proj2 (predict_fitted is_f_contig_sample keops_on predict_sample Y42f_grad
                    (fitted (opts 2 false false)) alpha21 C23 eq_refl eq_refl));
      reflexivity.
Defined.

End ModelUtilsMore.

(** ** Properties of the constructor, the device set-up and the callback *)

Module EstimatorSpec.

Import ModelUtils ModelUtilsSpec Estimator.

(** Unfolds one layer of the interpreter of the whole object. *)
Ltac erun :=
  unfold ebind, eret, throw, attr, assign_base, assign_more, manual_seed, cuda_init,
    print_line, assert_, of_outcome, lift, this; simpl.

Section Falkon.

Variable check_random_generator : option Z -> outcome nat.
Variable decide_cuda : FalkonOptions -> bool.
Variable default_options : FalkonOptions.
Variable devices_num_gpus : FalkonOptions -> Z.
Variable _predict : Tensor -> option Tensor -> option Tensor -> ERun Tensor.
Variable _params_to_original_space : Tensor -> nat -> ERun Tensor.
Variable call_error_fn : nat -> Tensor -> Tensor -> ERun error_value.

(** *** The constructor *)

(** What a constructor that returns has done. *)
Lemma init_returned kernel M center_selection seed error_fn error_every options w w' :
  __init__ check_random_generator decide_cuda default_options
    kernel M center_selection seed error_fn error_every options w = (Return tt, w') ->
  exists generator selector,
    check_random_generator seed = Ok generator
    /\ (forall s, seed = Some s -> seed_in_range s = true)
    /\ fst (_init_center_selection center_selection
              {| self := {| ModelUtils.M := M; ModelUtils.seed := seed;
                            random_state_ := generator;
                            ModelUtils.options := options_or default_options options;
                            use_cuda_ := decide_cuda (options_or default_options options);
                            num_gpus := 0; alpha_ := None; ny_points_ := None;
                            fit_times_ := None; val_errors_ := None |};
                 next_id := next_id (base w); trace := trace (base w) |}) = Ok selector
    /\ w' = {| base := {| self := {| ModelUtils.M := M; ModelUtils.seed := seed;
                                     random_state_ := generator;
                                     ModelUtils.options := options_or default_options options;
                                     use_cuda_ := decide_cuda (options_or default_options options);
                                     num_gpus := 0; alpha_ := None; ny_points_ := None;
                                     fit_times_ := None; val_errors_ := None |};
                          next_id := next_id (base w); trace := trace (base w) |};
               more := {| Estimator.kernel := kernel; Estimator.error_fn := error_fn;
                          Estimator.error_every := error_every;
                          Estimator.center_selection := Some selector |};
               seeds := seeds w ++ match seed with
                                   | Some s => [s]
                                   | None => []
                                   end;
               cuda_inits := cuda_inits w; console := console w |}.
Proof.
  unfold __init__, manual_seed.
  assert (Hrange : match seed with
                   | Some s => seed_in_range s = true \/ seed_in_range s = false
                   | None => True
                   end)
    by (destruct seed as [s|]; [destruct (seed_in_range s); auto|exact I]).
  destruct seed as [s|]; [destruct Hrange as [Hr|Hr]; rewrite Hr|]; erun;
    try discriminate;
    (destruct (check_random_generator _) as [generator|e] eqn:Hgen; simpl;
     [|discriminate]);
    unfold _init_center_selection; run;
    (destruct center_selection as [name|selector];
     [destruct (String.eqb (lower name) "uniform");
      [destruct M as [m|]|]|]); simpl; intros [= <-];
    eexists _, _; (split; [reflexivity|]);
    (split; [intros s0 Hs0; congruence|]); (split; [reflexivity|]);
    rewrite ?app_nil_r; reflexivity.
Qed.

(** X13: a constructed estimator is unfitted. Whenever [__init__]
    returns, the coefficients, centers and both histories are unset, the
    GPU count is 0, M and the options (the default ones when none were
    given) are stored, the seed has been handed to [torch.manual_seed]
    when there is one, and [predict] raises the not-trained error without
    changing anything. *)
Theorem init_unfitted kernel M center_selection seed error_fn error_every options w w' :
  __init__ check_random_generator decide_cuda default_options
    kernel M center_selection seed error_fn error_every options w = (Return tt, w') ->
  alpha_ (this w') = None /\ ny_points_ (this w') = None
  /\ fit_times_ (this w') = None /\ val_errors_ (this w') = None
  /\ num_gpus (this w') = 0 /\ ModelUtils.M (this w') = M
  /\ ModelUtils.options (this w') = options_or default_options options
  /\ seeds w' = seeds w ++ match seed with
                           | Some s => [s]
                           | None => []
                           end
  /\ (forall is_f_contig should_use_keops solver X,
        lift (predict is_f_contig should_use_keops solver X) w'
        = (Throw (Inherited (RuntimeError MsgNotTrained)), w')).
Proof.
  intros H. apply init_returned in H as (generator & selector & _ & _ & _ & ->).
  repeat split.
Qed.

(** X14: the constructor returns exactly when the seed, if there is
    one, is within the range [torch.manual_seed] takes (from -2^63 to
    2^64 - 1), the seed gives a random generator, and the center
    selection is a selector object or the name "uniform" (in any letter
    case) together with an M. *)
Theorem init_returns_iff kernel M center_selection seed error_fn error_every options w :
  (exists w', __init__ check_random_generator decide_cuda default_options
                kernel M center_selection seed error_fn error_every options w
              = (Return tt, w'))
  <-> match seed with
      | Some s => seed_in_range s = true
      | None => True
      end
      /\ (exists generator, check_random_generator seed = Ok generator)
      /\ match center_selection with
         | BySelector _ => True
         | ByName name => lower name = "uniform"%string /\ M <> None
         end.
Proof.
  split.
  - intros [w' H].
    apply init_returned in H as (generator & selector & Hgen & Hrange & Hsel & _).
    split; [destruct seed as [s|]; [now apply Hrange|exact I]|].
    split; [eauto|]. destruct center_selection as [name|sel0]; [|exact I].
    revert Hsel. unfold _init_center_selection. run.
    destruct (String.eqb (lower name) "uniform") eqn:E; simpl; [|discriminate].
    apply String.eqb_eq in E. destruct M; simpl; [|discriminate].
    intros _. split; [exact E|discriminate].
  - intros (Hrange & [generator Hgen] & Hsel). unfold __init__, manual_seed.
    destruct center_selection as [name|sel0].
    + destruct Hsel as [Hname HM]. destruct M as [m|]; [|contradiction].
      destruct seed as [s|]; [rewrite Hrange|]; erun; rewrite Hgen; simpl;
        unfold _init_center_selection; run; rewrite Hname; simpl; eauto.
    + destruct seed as [s|]; [rewrite Hrange|]; erun; rewrite Hgen; simpl; eauto.
Qed.

(** X15: a constructor that is given a seed within the range of
    [torch.manual_seed] and fails on the center selection has already
    seeded the process-wide generator and stored M, the generator and
    the unfitted attributes; the selector attribute is left as it was. *)
Theorem init_fails_after_seeding kernel M name seed error_fn error_every options w
    generator s :
  seed = Some s -> seed_in_range s = true ->
  check_random_generator seed = Ok generator ->
  lower name <> "uniform"%string \/ M = None ->
  exists m w',
    __init__ check_random_generator decide_cuda default_options
      kernel M (ByName name) seed error_fn error_every options w
    = (Throw (Inherited (ValueError m)), w')
    /\ seeds w' = seeds w ++ [s]
    /\ ModelUtils.M (this w') = M /\ alpha_ (this w') = None
    /\ random_state_ (this w') = generator
    /\ Estimator.center_selection (more w') = Estimator.center_selection (more w).
Proof.
  intros -> Hrange Hgen Hbad. unfold __init__, manual_seed. rewrite Hrange.
  erun. rewrite Hgen. simpl.
  unfold _init_center_selection. run.
  destruct (String.eqb (lower name) "uniform") eqn:E; simpl.
  - apply String.eqb_eq in E. destruct Hbad as [Hbad| ->]; [contradiction|].
    simpl. eexists _, _. split; [reflexivity|]. simpl. auto.
  - eexists _, _. split; [reflexivity|]. simpl. auto.
Qed.

(** *** Device set-up *)

(** X16: [_init_cuda] after a constructor that returned: when
    [decide_cuda] says no, nothing changes and the GPU count stays 0;
    when it says yes, CUDA is initialised once and the GPU count is the
    one [devices.num_gpus] gives for the stored options. The model stays
    unfitted. *)
Theorem init_then_init_cuda kernel M center_selection seed error_fn error_every options
    w w1 :
  __init__ check_random_generator decide_cuda default_options
    kernel M center_selection seed error_fn error_every options w = (Return tt, w1) ->
  let opts := options_or default_options options in
  exists w2,
    _init_cuda devices_num_gpus w1 = (Return tt, w2)
    /\ (decide_cuda opts = false -> w2 = w1)
    /\ num_gpus (this w2) = (if decide_cuda opts then devices_num_gpus opts else 0)
    /\ cuda_inits w2 = (cuda_inits w + if decide_cuda opts then 1 else 0)%nat
    /\ alpha_ (this w2) = None /\ ny_points_ (this w2) = None.
Proof.
  intros H opts. subst opts.
  apply init_returned in H as (generator & selector & _ & _ & _ & ->).
  unfold _init_cuda. erun.
  destruct (decide_cuda (options_or default_options options)); simpl;
    eexists; (split; [reflexivity|]); simpl; repeat split; auto; try lia; discriminate.
Qed.

(** *** The callback of the CG iterations *)

Lemma last_cons_snoc (t0 x : Z) (rest : list Z) : last (t0 :: rest ++ [x]) = Some x.
Proof. change (last ((t0 :: rest) ++ [x]) = Some x). apply last_snoc. Qed.

(** Unfolds the steps of the callback. *)
Ltac cback :=
  unfold val_cback, error_fn_of_self, first_item, last_item, append_fit_time,
    append_val_error, pymod; erun.

(** X17: [_get_callback_fn] changes nothing, and it hands out a callback
    exactly when X or Xts is given, Y or Yts is given and the estimator
    has an error function; otherwise an assertion fails. *)
Theorem get_callback_fn_returns_iff X Y Xts Yts ny_points precond w :
  snd (_get_callback_fn _predict _params_to_original_space call_error_fn
         X Y Xts Yts ny_points precond w) = w
  /\ ((exists cb, fst (_get_callback_fn _predict _params_to_original_space call_error_fn
                         X Y Xts Yts ny_points precond w) = Return cb)
      <-> (X <> None \/ Xts <> None) /\ (Y <> None \/ Yts <> None)
          /\ error_fn (more w) <> None).
Proof.
  unfold _get_callback_fn. erun.
  destruct X, Xts, Y, Yts; destruct (error_fn (more w)) eqn:Hfn; simpl;
    unfold eret, throw; rewrite ?Hfn; simpl;
    (split; [reflexivity|]);
    (split;
     [ intros [cb Hcb]; first [discriminate Hcb | repeat split; auto; discriminate]
     | intros ([?|?] & [?|?] & ?); solve [eauto | contradiction] ]).
Qed.

(** X18: between two reports (the iteration is not a multiple of
    [error_every]) the callback returns after appending
    [fit_times_[0] + train_time] to the times and printing the elapsed
    time; the errors, the coefficients and the other attributes are as
    before, and no method of the solver is entered. *)
Theorem val_cback_between_reports X Y Xts Yts ny_points precond it beta train_time w
    f t0 rest errs k :
  error_fn (more w) = Some f ->
  fit_times_ (this w) = Some (t0 :: rest) ->
  val_errors_ (this w) = Some errs ->
  error_every (more w) = Some k -> k <> 0 -> it mod k <> 0 ->
  exists w',
    val_cback _predict _params_to_original_space call_error_fn
      X Y Xts Yts ny_points precond it beta train_time w = (Return tt, w')
    /\ fit_times_ (this w') = Some (t0 :: rest ++ [t0 + train_time])
    /\ val_errors_ (this w') = Some errs
    /\ console w' = console w ++ [LineElapsed it (t0 + train_time)]
    /\ alpha_ (this w') = alpha_ (this w) /\ ny_points_ (this w') = ny_points_ (this w)
    /\ more w' = more w.
Proof.
  intros Hfn Htimes Herrs Hevery Hk Hmod. unfold this in *.
  destruct w as [[slf nid tr] mr sds ci con]. destruct slf, mr. simpl in *. subst.
  apply Z.eqb_neq in Hk. apply Z.eqb_neq in Hmod.
  cback. rewrite Hk. simpl. rewrite Hmod. simpl. rewrite last_cons_snoc. simpl.
  eexists. split; [reflexivity|]. simpl. repeat split.
Qed.

(** X19: on a report (the iteration is a multiple of [error_every]) with
    solver methods that return without touching the state, the error is
    the one of the validation data when both Xts and Yts are given, and
    the one of the training data otherwise; it is appended to the errors
    after the new time is appended to the times, and one line is printed
    with the matching label and the name the error function gave, or
    "error". *)
Theorem val_cback_reports X Y Xts Yts ny_points precond it beta train_time w
    f t0 rest errs k dx dy label alpha pred ev :
  error_fn (more w) = Some f ->
  fit_times_ (this w) = Some (t0 :: rest) ->
  val_errors_ (this w) = Some errs ->
  error_every (more w) = Some k -> k <> 0 -> it mod k = 0 ->
  (Xts = Some dx /\ Yts = Some dy /\ label = "validation"%string)
  \/ ((Xts = None \/ Yts = None) /\ X = Some dx /\ Y = Some dy
      /\ label = "training"%string) ->
  (forall u, _params_to_original_space beta precond u = (Return alpha, u)) ->
  (forall u, _predict dx (Some ny_points) (Some alpha) u = (Return pred, u)) ->
  (forall u, call_error_fn f dy pred u = (Return ev, u)) ->
  let err := match ev with
             | Plain e => e
             | Named e _ => e
             end in
  let err_name := match ev with
                  | Plain _ => "error"%string
                  | Named _ name => name
                  end in
  exists w',
    val_cback _predict _params_to_original_space call_error_fn
      X Y Xts Yts ny_points precond it beta train_time w = (Return tt, w')
    /\ fit_times_ (this w') = Some (t0 :: rest ++ [t0 + train_time])
    /\ val_errors_ (this w') = Some (errs ++ [err])
    /\ console w' = console w ++ [LineError it (t0 + train_time) label err_name err]
    /\ alpha_ (this w') = alpha_ (this w) /\ more w' = more w.
Proof.
  intros Hfn Htimes Herrs Hevery Hk Hmod Hdata Hparams Hpred Herr err err_name.
  subst err err_name. unfold this in *.
  destruct w as [[slf nid tr] mr sds ci con]. destruct slf, mr. simpl in *. subst.
  apply Z.eqb_neq in Hk.
  cback. rewrite Hk. simpl. rewrite Hmod. simpl. rewrite Hparams.
  destruct Hdata as [(-> & -> & ->)|(Hmissing & -> & -> & ->)].
  - rewrite Hpred. simpl. rewrite Herr.
    destruct ev as [e|e name]; simpl; rewrite last_cons_snoc; simpl;
      eexists; (split; [reflexivity|]); simpl; repeat split.
  - destruct Hmissing as [-> | ->]; [|destruct Xts]; simpl;
      rewrite Hpred; simpl; rewrite Herr;
      destruct ev as [e|e name]; simpl; rewrite last_cons_snoc; simpl;
      eexists; (split; [reflexivity|]); simpl; repeat split.
Qed.

(** X20: right after [_reset_state] the times are an empty list, and a
    callback then raises [IndexError] at [fit_times_[0]]: the preparation
    time has to be stored first. Nothing is recorded or printed. *)
Theorem val_cback_after_reset X Y Xts Yts ny_points precond it beta train_time w f :
  error_fn (more w) = Some f ->
  exists w',
    lift _reset_state w = (Return tt, w')
    /\ val_cback _predict _params_to_original_space call_error_fn
         X Y Xts Yts ny_points precond it beta train_time w'
       = (Throw (Inherited IndexError), w').
Proof.
  intros Hfn. destruct w as [[slf nid tr] mr sds ci con]. destruct slf, mr.
  simpl in *. subst. eexists. split; [reflexivity|]. reflexivity.
Qed.

(** X21: with [error_every] 0 or unset the callback raises at the
    remainder ([ZeroDivisionError], or the [TypeError] of an operand that
    is [None]), and by then the new time is already in the times; the
    errors and the printed lines are as before. *)
Theorem val_cback_bad_error_every X Y Xts Yts ny_points precond it beta train_time w
    f t0 rest errs :
  error_fn (more w) = Some f ->
  fit_times_ (this w) = Some (t0 :: rest) ->
  val_errors_ (this w) = Some errs ->
  error_every (more w) = Some 0 \/ error_every (more w) = None ->
  exists e w',
    val_cback _predict _params_to_original_space call_error_fn
      X Y Xts Yts ny_points precond it beta train_time w = (Throw e, w')
    /\ (e = if is_None (error_every (more w)) then NoneTypeError else ZeroDivisionError)
    /\ fit_times_ (this w') = Some (t0 :: rest ++ [t0 + train_time])
    /\ val_errors_ (this w') = Some errs /\ console w' = console w.
Proof.
  intros Hfn Htimes Herrs Hevery. unfold this in *.
  destruct w as [[slf nid tr] mr sds ci con]. destruct slf, mr. simpl in *. subst.
  destruct Hevery as [-> | ->]; cback; eexists _, _; (split; [reflexivity|]);
    simpl; repeat split.
Qed.

(** X22: the assertions of [_get_callback_fn] let through a mix such as
    Xts with Y but neither X nor Yts. The callback it hands out then
    fails its own assertion on a report, after the new time is stored and
    the coefficients are mapped back, without a prediction being made. *)
Theorem val_cback_mixed_data X Y Xts Yts ny_points precond it beta train_time w
    f t0 rest errs k alpha :
  X <> None \/ Xts <> None -> Y <> None \/ Yts <> None ->
  Xts = None \/ Yts = None -> X = None \/ Y = None ->
  error_fn (more w) = Some f ->
  fit_times_ (this w) = Some (t0 :: rest) ->
  val_errors_ (this w) = Some errs ->
  error_every (more w) = Some k -> k <> 0 -> it mod k = 0 ->
  (forall u, _params_to_original_space beta precond u = (Return alpha, u)) ->
  _get_callback_fn _predict _params_to_original_space call_error_fn
    X Y Xts Yts ny_points precond w
  = (Return (val_cback _predict _params_to_original_space call_error_fn
               X Y Xts Yts ny_points precond), w)
  /\ exists w',
       val_cback _predict _params_to_original_space call_error_fn
         X Y Xts Yts ny_points precond it beta train_time w
       = (Throw (AssertionFailure ""), w')
       /\ fit_times_ (this w') = Some (t0 :: rest ++ [t0 + train_time])
       /\ val_errors_ (this w') = Some errs /\ console w' = console w.
Proof.
  intros HX HY Hval Htrain Hfn Htimes Herrs Hevery Hk Hmod Hparams. unfold this in *.
  destruct w as [[slf nid tr] mr sds ci con]. destruct slf, mr. simpl in *. subst.
  apply Z.eqb_neq in Hk. split.
  - unfold _get_callback_fn. erun.
    destruct X, Xts, Y, Yts; simpl; try reflexivity;
      solve [destruct HX; contradiction | destruct HY; contradiction].
  - cback. rewrite Hk. simpl. rewrite Hmod. simpl. rewrite Hparams.
    destruct Hval as [-> | ->], Htrain as [-> | ->]; simpl;
      repeat match goal with
             | |- context [match ?o with Some _ => _ | None => _ end] =>
                 is_var o; destruct o; simpl
             end;
      eexists; (split; [reflexivity|]); simpl; repeat split.
Qed.

End Falkon.

(** *** The statements at sample inputs *)

Import Samples.

(** [Falkon(kernel, M=2, center_selection="Uniform", seed=7)]. *)
Lemma init_unfitted_witness :
  fst (construct no_cuda (Some 2) (ByName "Uniform") (Some 7)) = Return tt
  /\ alpha_ (this (snd (construct no_cuda (Some 2) (ByName "Uniform") (Some 7)))) = None
  /\ seeds (snd (construct no_cuda (Some 2) (ByName "Uniform") (Some 7))) = [7]
  /\ ModelUtils.options (this (snd (construct no_cuda (Some 2) (ByName "Uniform") (Some 7))))
     = opts 1200 false false.
Proof.
  split; [reflexivity|].
  pose proof (init_unfitted generator_sample no_cuda (opts 1200 false false)
                0%nat (Some 2) (ByName "Uniform") (Some 7) None (Some 1) None
                (running None None None None)
                (snd (construct no_cuda (Some 2) (ByName "Uniform") (Some 7))) eq_refl)
    as (Ha & _ & _ & _ & _ & _ & Ho & Hs & _).
  split; [exact Ha|split; [exact Hs|exact Ho]].
Defined.

(** [Falkon(kernel, M=None, seed=7)]: the default "uniform" without M. *)
Lemma init_fails_after_seeding_witness :
  exists m w',
    construct no_cuda None (ByName "uniform") (Some 7)
      = (Throw (Inherited (ValueError m)), w')
    /\ seeds w' = seeds (running None None None None) ++ [7]
    /\ ModelUtils.M (this w') = None /\ alpha_ (this w') = None
    /\ random_state_ (this w') = 7%nat
    /\ center_selection (more w') = center_selection (more (running None None None None)).
Proof.
  apply (init_fails_after_seeding generator_sample no_cuda (opts 1200 false false)
           0%nat None "uniform" (Some 7) None (Some 1) None
           (running None None None None) 7%nat 7 eq_refl eq_refl eq_refl).
  right. reflexivity.
Defined.

(** [Falkon(kernel, M=2, seed=2**64)]: [torch.manual_seed] refuses the
    seed; nothing was seeded, and of the attributes only the kernel, M
    and the seed have been assigned. *)
Example init_seed_out_of_range :
  fst (construct no_cuda (Some 2) (ByName "uniform") (Some (2 ^ 64)))
    = Throw (Inherited (RuntimeError MsgSeedOverflow))
  /\ seeds (snd (construct no_cuda (Some 2) (ByName "uniform") (Some (2 ^ 64)))) = []
  /\ ModelUtils.M (this (snd (construct no_cuda (Some 2) (ByName "uniform")
                                 (Some (2 ^ 64))))) = Some 2
  /\ ModelUtils.seed (this (snd (construct no_cuda (Some 2) (ByName "uniform")
                                    (Some (2 ^ 64))))) = Some (2 ^ 64).
Proof. repeat split. Qed.

Lemma init_then_init_cuda_witness :
  exists w2,
    _init_cuda two_gpus
      (snd (construct with_cuda (Some 2) (BySelector (CustomSelector 3)) None))
      = (Return tt, w2)
    /\ num_gpus (this w2) = 2 /\ cuda_inits w2 = 1%nat /\ alpha_ (this w2) = None.
Proof.
  destruct (init_then_init_cuda generator_sample with_cuda (opts 1200 false false) two_gpus
              0%nat (Some 2) (BySelector (CustomSelector 3)) None None (Some 1) None
              (running None None None None)
              (snd (construct with_cuda (Some 2) (BySelector (CustomSelector 3)) None))
              eq_refl)
    as (w2 & H & _ & Hn & Hc & Ha & _).
  exists w2. repeat split; assumption.
Defined.

(** Iteration 3 with a report every 2 iterations, 5 s of preparation
    and 4 s of training. *)
Lemma val_cback_between_reports_witness :
  exists w',
    val_cback solver_sample params_sample mse_sample
      (Some X43) (Some Y42c) None None C23 0%nat 3 alpha21 4
      (running (Some [5]) (Some []) (Some 1%nat) (Some 2)) = (Return tt, w')
    /\ fit_times_ (this w') = Some [5; 9] /\ val_errors_ (this w') = Some []
    /\ console w' = [LineElapsed 3 9].
Proof.
  destruct (val_cback_between_reports solver_sample params_sample mse_sample
              (Some X43) (Some Y42c) None None C23 0%nat 3 alpha21 4
              (running (Some [5]) (Some []) (Some 1%nat) (Some 2))
              1%nat 5 [] [] 2 eq_refl eq_refl eq_refl eq_refl)
    as (w' & H & Ht & He & Hc & _);
    [lia|intros Hz; vm_compute in Hz; discriminate Hz|].
  exists w'. repeat split; assumption.
Defined.

(** Iteration 4 with a report every 2 iterations, on training data. *)
Lemma val_cback_reports_witness :
  exists w',
    val_cback solver_sample params_sample mse_sample
      (Some X43) (Some Y42c) None None C23 0%nat 4 alpha21 4
      (running (Some [5]) (Some []) (Some 1%nat) (Some 2)) = (Return tt, w')
    /\ fit_times_ (this w') = Some [5; 9] /\ val_errors_ (this w') = Some [3]
    /\ console w' = [LineError 4 9 "training" "mse" 3].
Proof.
  destruct (val_cback_reports solver_sample params_sample mse_sample
              (Some X43) (Some Y42c) None None C23 0%nat 4 alpha21 4
              (running (Some [5]) (Some []) (Some 1%nat) (Some 2))
              1%nat 5 [] [] 2 X43 Y42c "training" alpha21 X43 (Named 3 "mse")
              eq_refl eq_refl eq_refl eq_refl)
    as (w' & H & Ht & He & Hc & _);
    [lia|reflexivity|right; auto|reflexivity|reflexivity|reflexivity|].
  exists w'. repeat split; assumption.
Defined.

Lemma val_cback_after_reset_witness :
  exists w',
    lift _reset_state (running (Some [5; 9]) (Some [3]) (Some 1%nat) (Some 2))
      = (Return tt, w')
    /\ val_cback solver_sample params_sample mse_sample
         (Some X43) (Some Y42c) None None C23 0%nat 4 alpha21 4 w'
       = (Throw (Inherited IndexError), w').
Proof.
  apply (val_cback_after_reset solver_sample params_sample mse_sample
           (Some X43) (Some Y42c) None None C23 0%nat 4 alpha21 4
           (running (Some [5; 9]) (Some [3]) (Some 1%nat) (Some 2)) 1%nat).
  reflexivity.
Defined.

Lemma val_cback_bad_error_every_witness :
  exists e w',
    val_cback solver_sample params_sample mse_sample
      (Some X43) (Some Y42c) None None C23 0%nat 4 alpha21 4
      (running (Some [5]) (Some []) (Some 1%nat) (Some 0)) = (Throw e, w')
    /\ e = ZeroDivisionError
    /\ fit_times_ (this w') = Some [5; 9] /\ val_errors_ (this w') = Some []
    /\ console w' = [].
Proof.
  apply (val_cback_bad_error_every solver_sample params_sample mse_sample
           (Some X43) (Some Y42c) None None C23 0%nat 4 alpha21 4
           (running (Some [5]) (Some []) (Some 1%nat) (Some 0))
           1%nat 5 [] [] eq_refl eq_refl eq_refl).
  left. reflexivity.
Defined.

(** Validation data Xts and training targets Y, but neither X nor Yts. *)
Lemma val_cback_mixed_data_witness :
  _get_callback_fn solver_sample params_sample mse_sample
    None (Some Y42c) (Some X43) None C23 0%nat
    (running (Some [5]) (Some []) (Some 1%nat) (Some 2))
  = (Return (val_cback solver_sample params_sample mse_sample
               None (Some Y42c) (Some X43) None C23 0%nat),
     running (Some [5]) (Some []) (Some 1%nat) (Some 2))
  /\ exists w',
       val_cback solver_sample params_sample mse_sample
         None (Some Y42c) (Some X43) None C23 0%nat 4 alpha21 4
         (running (Some [5]) (Some []) (Some 1%nat) (Some 2))
       = (Throw (AssertionFailure ""), w')
       /\ fit_times_ (this w') = Some ([5] ++ [5 + 4])
       /\ val_errors_ (this w') = Some []
       /\ console w' = console (running (Some [5]) (Some []) (Some 1%nat) (Some 2)).
Proof.
  apply (val_cback_mixed_data solver_sample params_sample mse_sample
           None (Some Y42c) (Some X43) None C23 0%nat 4 alpha21 4
           (running (Some [5]) (Some []) (Some 1%nat) (Some 2))
           1%nat 5 [] [] 2 alpha21);
    try reflexivity; try lia; auto; try (right; discriminate).
Defined.

End EstimatorSpec.

(** ** Properties of the expected values and of the test runner *)

Module FixtureSpec.

Import TestKernels MatrixFacts Samples.

Lemma wf_matrix_rows (A : matrix) : wf_matrix A = true -> length (entries A) = nrows A.
Proof.
  unfold wf_matrix. intros H. apply andb_true_iff in H as [H _]. now apply Nat.eqb_eq.
Qed.

Lemma transpose_rows (K : matrix) : length (entries (transpose K)) = nrows (transpose K).
Proof. simpl. now rewrite length_map, length_seq. Qed.

Lemma zip_with_map_same {A B} (h : B -> B -> B) (f g : A -> B) (l : list A) :
  zip_with h (map f l) (map g l) = map (fun x => h (f x) (g x)) l.
Proof. induction l as [|x l IH]; simpl; [reflexivity|now rewrite IH]. Qed.

Lemma dot_add (r c1 c2 : list Z) :
  length c1 = length c2 -> dot r (zip_with Z.add c1 c2) = dot r c1 + dot r c2.
Proof.
  unfold dot. revert c1 c2.
  induction r as [|x r IH]; intros [|a c1] [|b c2] H; simpl in *;
    try discriminate; try reflexivity.
  rewrite IH by lia. lia.
Qed.

Lemma nth_zip_add (j : nat) (a b : list Z) :
  length a = length b -> nth j (zip_with Z.add a b) 0 = nth j a 0 + nth j b 0.
Proof.
  revert a b. induction j as [|j IH]; intros [|x a] [|y b] H; simpl in *;
    try discriminate; try reflexivity.
  apply IH. lia.
Qed.

Lemma column_add (j t : nat) (rows1 rows2 : list (list Z)) :
  length rows1 = length rows2 ->
  forallb (fun r => (length r =? t)%nat) rows1 = true ->
  forallb (fun r => (length r =? t)%nat) rows2 = true ->
  map (fun r => nth j r 0) (zip_with (zip_with Z.add) rows1 rows2)
  = zip_with Z.add (map (fun r => nth j r 0) rows1) (map (fun r => nth j r 0) rows2).
Proof.
  revert rows2. induction rows1 as [|a rows1 IH]; intros [|b rows2] Hlen H1 H2;
    simpl in *; try discriminate; [reflexivity|].
  apply andb_true_iff in H1 as [Ha H1]. apply andb_true_iff in H2 as [Hb H2].
  apply Nat.eqb_eq in Ha, Hb. rewrite nth_zip_add by congruence.
  f_equal. apply IH; [lia|assumption|assumption].
Qed.

(** A product distributes over the sum of two well-formed matrices of
    one shape. *)
Lemma matmul_madd (A S T : matrix) :
  wf_matrix S = true -> wf_matrix T = true ->
  nrows S = nrows T -> ncols S = ncols T -> ncols A = nrows S ->
  exists ST AS AT,
    madd S T = Some ST /\ matmul A S = Some AS /\ matmul A T = Some AT
    /\ matmul A ST = madd AS AT.
Proof.
  intros HS HT Hn Ht HA.
  pose proof (wf_matrix_rows S HS) as HlenS. pose proof (wf_matrix_rows T HT) as HlenT.
  unfold wf_matrix in HS, HT.
  apply andb_true_iff in HS as [_ HS]. apply andb_true_iff in HT as [_ HT].
  unfold madd, matmul. rewrite <- Hn, <- Ht, HA, !Nat.eqb_refl. simpl.
  eexists _, _, _. repeat (split; [reflexivity|]).
  simpl. rewrite !Nat.eqb_refl. simpl. f_equal. f_equal.
  rewrite zip_with_map_same. apply map_ext. intros r.
  rewrite zip_with_map_same. apply map_ext. intros j.
  unfold column. simpl. rewrite Ht in HS.
  rewrite (column_add j (ncols T)) by (try assumption; congruence).
  apply dot_add. rewrite !length_map. congruence.
Qed.

(** X23: the expected value of [test_dvw] is the sum of those of
    [test_dv] and [test_dw]: K^T (K v + w) = K^T (K v) + K^T w, for a K
    with as many rows as it declares, a [v] with as many rows as K has
    columns, and a well-formed [w] of the shape of K v. *)
Theorem exp_dvw_is_sum (exp_k v w : matrix) :
  length (entries exp_k) = nrows exp_k -> ncols exp_k = nrows v ->
  wf_matrix w = true -> nrows w = nrows exp_k -> ncols w = ncols v ->
  exists dv dw,
    exp_dv exp_k v = Some dv /\ exp_dw exp_k w = Some dw
    /\ exp_dvw exp_k v w = madd dv dw /\ is_Some (madd dv dw).
Proof.
  intros HK Hv Hw Hn Ht. unfold exp_dv, exp_dw, exp_dvw.
  destruct (matmul exp_k v) as [Kv|] eqn:E;
    [|unfold matmul in E; rewrite Hv, Nat.eqb_refl in E; discriminate].
  assert (HwfKv : wf_matrix Kv = true) by (eapply matmul_wf; eauto).
  assert (Hshape : nrows Kv = nrows exp_k /\ ncols Kv = ncols v).
  { unfold matmul in E. rewrite Hv, Nat.eqb_refl in E. injection E as <-. auto. }
  destruct Hshape as [HnKv HtKv].
  destruct (matmul_madd (transpose exp_k) Kv w HwfKv Hw)
    as (s & dv & dw & Hs & Hdv & Hdw & Hsum); try congruence; [simpl; congruence|].
  rewrite Hs, Hdv, Hdw. exists dv, dw. repeat split; auto.
  rewrite <- Hsum. unfold matmul. unfold madd in Hs.
  rewrite HnKv, Hn, HtKv, Ht, !Nat.eqb_refl in Hs. simpl in Hs. injection Hs as <-.
  simpl. rewrite Nat.eqb_refl. eauto.
Qed.

(** X24: a zero operand drops out of the expected value of [test_dvw]:
    with [w] the zero matrix of the shape of K v it is the expected
    value of [test_dv], and with [v] zero it is the expected value of
    [test_dw] for a well-formed [w] that has as many rows as K. *)
Theorem exp_dvw_zero_operand (exp_k v w : matrix) :
  length (entries exp_k) = nrows exp_k ->
  exp_dvw exp_k v (zeros (nrows exp_k) (ncols v)) = exp_dv exp_k v
  /\ (wf_matrix w = true -> nrows w = nrows exp_k ->
      exp_dvw exp_k (zeros (ncols exp_k) (ncols w)) w = exp_dw exp_k w).
Proof.
  intros HK. unfold exp_dvw, exp_dv, exp_dw. split.
  - destruct (matmul exp_k v) as [Kv|] eqn:E; [|reflexivity].
    assert (HwfKv : wf_matrix Kv = true) by (eapply matmul_wf; eauto).
    assert (Hshape : nrows Kv = nrows exp_k /\ ncols Kv = ncols v).
    { unfold matmul in E. destruct (ncols exp_k =? nrows v)%nat; [|discriminate].
      injection E as <-. auto. }
    destruct Hshape as [<- <-]. now rewrite madd_zeros_r.
  - intros Hw Hn. rewrite matmul_zeros by assumption.
    rewrite <- Hn, madd_zeros_l by assumption. reflexivity.
Qed.

(** X25: the expected values have the shapes of the products they stand
    for: K v has the rows of K and the columns of v, and the three dmmv
    values have as many rows as K has columns; each lists as many rows
    as it declares, all of the declared length. For the value of
    [test_dvw] this is stated for a [w] of the shape of K v, where the
    sum is entry by entry. *)
Theorem expected_shapes (exp_k v w r : matrix) :
  length (entries exp_k) = nrows exp_k ->
  (exp_v exp_k v = Some r ->
     nrows r = nrows exp_k /\ ncols r = ncols v /\ wf_matrix r = true)
  /\ (exp_dv exp_k v = Some r ->
        nrows r = ncols exp_k /\ ncols r = ncols v /\ wf_matrix r = true)
  /\ (exp_dw exp_k w = Some r ->
        nrows r = ncols exp_k /\ ncols r = ncols w /\ wf_matrix r = true)
  /\ (nrows w = nrows exp_k -> ncols w = ncols v -> exp_dvw exp_k v w = Some r ->
        nrows r = ncols exp_k /\ ncols r = ncols v /\ wf_matrix r = true).
Proof.
  intros HK.
  assert (Hmm : forall A B C, length (entries A) = nrows A -> matmul A B = Some C ->
            nrows C = nrows A /\ ncols C = ncols B /\ wf_matrix C = true).
  { intros A B C HA H. split; [|split]; [| |eapply matmul_wf; eauto];
      unfold matmul in H; destruct (ncols A =? nrows B)%nat; try discriminate;
      injection H as <-; reflexivity. }
  unfold exp_v, exp_dv, exp_dw, exp_dvw. split; [|split; [|split]].
  - intros H. now apply Hmm in H.
  - destruct (matmul exp_k v) as [Kv|] eqn:E; [|discriminate]. intros H.
    apply Hmm in H as (Hn & Ht & Hwf); [|apply transpose_rows].
    apply Hmm in E as (_ & HtKv & _); [|assumption].
    simpl in Hn. repeat split; auto; congruence.
  - intros H. apply Hmm in H as (Hn & Ht & Hwf); [|apply transpose_rows].
    simpl in Hn. auto.
  - intros _ _. destruct (matmul exp_k v) as [Kv|] eqn:E; [|discriminate].
    destruct (madd Kv w) as [s|] eqn:Es; [|discriminate]. intros H.
    apply Hmm in H as (Hn & Ht & Hwf); [|apply transpose_rows].
    apply Hmm in E as (_ & HtKv & _); [|assumption].
    unfold madd in Es.
    destruct ((nrows Kv =? nrows w)%nat && (ncols Kv =? ncols w)%nat)%bool;
      [|discriminate].
    injection Es as <-. simpl in *. repeat split; auto; congruence.
Qed.

(** The two checks in their order: the memory is untouched; the checks
    pass exactly when the buffer holds a matrix within the tolerance and
    is [out] if that was given; a matrix out of tolerance fails the
    accuracy check whatever [out] is, and the pointer check fails only
    after the accuracy check has passed. *)
Lemma run_checks_spec (exp : matrix) (actual : nat) (out : option nat) (rtol : Q)
    (mem : memory) :
  snd (run_checks exp actual out rtol mem) = mem
  /\ (fst (run_checks exp actual out rtol mem) = Ok tt
      <-> exists result, mem !! actual = Some result
            /\ allclose rtol exp result = true
            /\ (forall p, out = Some p -> p = actual))
  /\ ((forall result, mem !! actual = Some result -> allclose rtol exp result = false)
      -> fst (run_checks exp actual out rtol mem) = Raise (AssertionError MsgNotClose))
  /\ (forall result p, mem !! actual = Some result -> allclose rtol exp result = true ->
        out = Some p -> p <> actual ->
        fst (run_checks exp actual out rtol mem) = Raise (AssertionError MsgOutputNotUsed)).
Proof.
  unfold run_checks.
  destruct (mem !! actual) as [result|] eqn:Hl;
    [destruct (allclose rtol exp result) eqn:Hc;
     [destruct out as [p|]; [destruct (p =? actual)%nat eqn:Hp|]|]|]; simpl;
    (split; [reflexivity|split; [split|split]]).
  all: try (intros H; discriminate H).
  all: try (intros H; specialize (H result eq_refl); congruence).
  all: try (intros r0 p0 [= <-] Hclose; congruence).
  all: try (intros r0 p0 Hr; discriminate Hr).
  all: try (intros r0 p0 _ _ Hout; discriminate Hout).
  all: try (intros (r0 & [= <-] & Hclose & _); congruence).
  all: try (intros (r0 & Hr & _); discriminate Hr).
  all: try reflexivity.
  all: try (intros _; exists result; repeat split; auto; congruence).
  - apply Nat.eqb_eq in Hp. intros _. exists result. repeat split; auto. congruence.
  - apply Nat.eqb_eq in Hp. intros r0 p0 _ _ [= <-] Hne. contradiction.
  - apply Nat.eqb_neq in Hp. intros (r0 & _ & _ & Hout). exfalso. apply Hp. now apply Hout.
Qed.

(** X26: [_run_test] runs the call inside the [memory_checker] context
    and then makes its two checks in order. It passes exactly when the
    context is entered, the call returns a buffer, the context is left
    without an error, the buffer holds a matrix within the tolerance of
    the expected one and, if [out] was given, the buffer is [out]. After
    a call that returned and a context left without an error, a matrix
    out of tolerance fails the accuracy check whatever [out] is, and a
    buffer other than [out] fails the pointer check only when the
    accuracy check has passed. An exception of the call goes through the
    context: it comes out unchanged unless the context swallows it, and
    then the unassigned [actual] is what fails. An error of the context
    itself, on entering or on leaving, is the error of the test. *)
Theorem run_test_passes_iff {options : Type}
    (memory_checker : options -> memory -> checked (options * leave_fn) * memory)
    (fn : options -> option nat -> memory -> outcome nat * memory)
    (exp : matrix) (out : option nat) (rtol : Q) (opt : options) (mem : memory) :
  let r := _run_test memory_checker fn exp out rtol opt mem in
  let returned (actual : nat) (mem2 : memory) :=
    exists new_opt leave mem0 mem1 b,
      memory_checker opt mem = (Passed (new_opt, leave), mem0)
      /\ fn new_opt out mem0 = (Ok actual, mem1)
      /\ leave None mem1 = (Passed b, mem2) in
  (fst r = Ok tt
   <-> exists actual mem2 result,
         returned actual mem2 /\ mem2 !! actual = Some result
         /\ allclose rtol exp result = true
         /\ (forall p, out = Some p -> p = actual))
  /\ (forall actual mem2, returned actual mem2 ->
        (forall result, mem2 !! actual = Some result -> allclose rtol exp result = false) ->
        r = (Raise (AssertionError MsgNotClose), mem2))
  /\ (forall actual mem2 result p, returned actual mem2 ->
        mem2 !! actual = Some result -> allclose rtol exp result = true ->
        out = Some p -> p <> actual ->
        r = (Raise (AssertionError MsgOutputNotUsed), mem2))
  /\ (forall new_opt leave mem0 e mem1 b mem2,
        memory_checker opt mem = (Passed (new_opt, leave), mem0) ->
        fn new_opt out mem0 = (Raise e, mem1) ->
        leave (Some e) mem1 = (Passed b, mem2) ->
        r = (Raise (if b then UnboundLocalError else e), mem2))
  /\ (forall code mem0, memory_checker opt mem = (Failed code, mem0) ->
        r = (Raise (CheckerError code), mem0))
  /\ (forall new_opt leave mem0 res mem1 code mem2,
        memory_checker opt mem = (Passed (new_opt, leave), mem0) ->
        fn new_opt out mem0 = (res, mem1) ->
        leave match res with
              | Raise e => Some e
              | Ok _ => None
              end mem1 = (Failed code, mem2) ->
        r = (Raise (CheckerError code), mem2)).
Proof.
  intros r returned. subst r returned. cbv beta.
  assert (Hret : forall new_opt leave mem0 actual mem1 b mem2,
            memory_checker opt mem = (Passed (new_opt, leave), mem0) ->
            fn new_opt out mem0 = (Ok actual, mem1) ->
            leave None mem1 = (Passed b, mem2) ->
            _run_test memory_checker fn exp out rtol opt mem
            = run_checks exp actual out rtol mem2).
  { intros * Hm Hf Hl. unfold _run_test. now rewrite Hm, Hf, Hl. }
  split; [split|split; [|split; [|split; [|split]]]].
  - unfold _run_test.
    destruct (memory_checker opt mem) as [[[new_opt leave]|code] mem0] eqn:Hm;
      [|discriminate].
    destruct (fn new_opt out mem0) as [[actual|e] mem1] eqn:Hf.
    + destruct (leave None mem1) as [[b|code] mem2] eqn:Hl; [|discriminate].
      intros H. apply run_checks_spec in H as (result & Hr & Hc & Hout).
      exists actual, mem2, result. repeat split; auto.
      exists new_opt, leave, mem0, mem1, b. auto.
    + destruct (leave (Some e) mem1) as [[[|]|code] mem2]; discriminate.
  - intros (actual & mem2 & result & (new_opt & leave & mem0 & mem1 & b & Hm & Hf & Hl)
            & Hr & Hc & Hout).
    rewrite (Hret _ _ _ _ _ _ _ Hm Hf Hl). apply run_checks_spec. eauto.
  - intros actual mem2 (new_opt & leave & mem0 & mem1 & b & Hm & Hf & Hl) Hfar.
    rewrite (Hret _ _ _ _ _ _ _ Hm Hf Hl).
    destruct (run_checks_spec exp actual out rtol mem2) as (Hmem & _ & Hacc & _).
    pose proof (Hacc Hfar) as Ha.
    destruct (run_checks exp actual out rtol mem2) as [o m]. simpl in *. now subst.
  - intros actual mem2 result p (new_opt & leave & mem0 & mem1 & b & Hm & Hf & Hl)
      Hr Hc Hout Hne.
    rewrite (Hret _ _ _ _ _ _ _ Hm Hf Hl).
    destruct (run_checks_spec exp actual out rtol mem2) as (Hmem & _ & _ & Hptr).
    pose proof (Hptr result p Hr Hc Hout Hne) as Hp.
    destruct (run_checks exp actual out rtol mem2) as [o m]. simpl in *. now subst.
  - intros * Hm Hf Hl. unfold _run_test. rewrite Hm, Hf, Hl. now destruct b.
  - intros * Hm. unfold _run_test. now rewrite Hm.
  - intros * Hm Hf Hl. unfold _run_test. rewrite Hm, Hf.
    destruct res as [actual|e]; now rewrite Hl.
Qed.

(** *** The statements at sample inputs *)

Lemma exp_dvw_is_sum_witness :
  exists dv dw,
    exp_dv (full k_linear A2 B2) v21 = Some dv
    /\ exp_dw (full k_linear A2 B2) w31 = Some dw
    /\ exp_dvw (full k_linear A2 B2) v21 w31 = madd dv dw /\ is_Some (madd dv dw).
Proof.
  apply (exp_dvw_is_sum (full k_linear A2 B2) v21 w31); reflexivity.
Defined.

Example exp_dvw_sum_values :
  exp_dv (full k_linear A2 B2) v21
    = Some {| nrows := 2; ncols := 1; entries := [[123]; [156]] |}
  /\ exp_dw (full k_linear A2 B2) w31
     = Some {| nrows := 2; ncols := 1; entries := [[9]; [12]] |}
  /\ exp_dvw (full k_linear A2 B2) v21 w31
     = Some {| nrows := 2; ncols := 1; entries := [[132]; [168]] |}.
Proof. repeat split. Qed.

Lemma exp_dvw_zero_operand_witness :
  exp_dvw (full k_linear A2 B2) v21 (zeros 3 1) = exp_dv (full k_linear A2 B2) v21
  /\ exp_dvw (full k_linear A2 B2) (zeros 2 1) w31 = exp_dw (full k_linear A2 B2) w31.
Proof.
  destruct (exp_dvw_zero_operand (full k_linear A2 B2) v21 w31 eq_refl) as [Hw Hv].
  split; [exact Hw|]. apply Hv; reflexivity.
Defined.

(** [test_dv] on the linear kernel with the expected value of the
    sample: it passes under a memory checker that never objects; under
    one that finds the budget exceeded when the context is left, the
    error of the checker is the outcome, though the value is right. *)
Example test_dv_under_checkers :
  fst (test_dv checker_quiet k_linear A2 B2 v21
         {| nrows := 2; ncols := 1; entries := [[123]; [156]] |} float64 tt mem1) = Ok tt
  /\ fst (test_dv checker_strict k_linear A2 B2 v21
            {| nrows := 2; ncols := 1; entries := [[123]; [156]] |} float64 tt mem1)
     = Raise (CheckerError 1).
Proof. split; vm_compute; reflexivity. Qed.

Lemma expected_shapes_witness :
  nrows {| nrows := 2; ncols := 1; entries := [[132]; [168]] |}
    = ncols (full k_linear A2 B2)
  /\ ncols {| nrows := 2; ncols := 1; entries := [[132]; [168]] |} = ncols v21
  /\ wf_matrix {| nrows := 2; ncols := 1; entries := [[132]; [168]] |} = true.
Proof.
  apply (proj2 (proj2 (proj2 (expected_shapes (full k_linear A2 B2) v21 w31
                                 {| nrows := 2; ncols := 1; entries := [[132]; [168]] |}
                                 eq_refl))));
    reflexivity.
Defined.

End FixtureSpec.
